(** * RSI signal core of the Nifty50 trading bot

    A shallow embedding of [maincode.py]: the RSI estimator
    ([calculate_rsi]), the per-timeframe classifier ([get_rsi_signal]), the
    weighted aggregator ([get_overall_signal]) and the refresh routine
    ([update_data]) with its fallback policy and its two notifications.

    Numbers.  The prices are doubles, finite or missing (NaN), and a
    Python/NumPy float is modelled in two ways.

    - As an exact rational or NaN ([pyfloat]): [Fin q] stands for the
      double of value [q], arithmetic is exact and the model has no
      infinities; [fdiv] returns NaN for a zero divisor, and
      [calculate_rsi_divisors] below shows that [calculate_rsi] never
      divides by zero.  The statements proved on this model are those that
      rounding leaves alone: lengths, bounds, zero losses, the structure of
      windows, texts and messages.  The literal 0.0001 is the double
      nearest to it.

    - In binary64, on Rocq's primitive floats ([Double]), wherever the
      rounding decides what the source stores or returns: the price change
      of a refresh, whose two-decimal text depends on the last bit of the
      quotient, and the test of an average loss against 0.0001.  The
      weighted score of the aggregator is recomputed in binary64 in
      [Binary64], and [binary64_labels] shows that rounding changes no
      label.

    Libraries.  pandas and NumPy calls are modelled by their documented
    meaning ([ffill], [diff], [rolling_mean], element-wise selection), the
    clock and the download are inputs of the model.  How pandas rounds the
    running sum of a window is not documented: the binary64 estimator takes
    the rolling mean as a parameter. *)

From Stdlib Require Import String Ascii Bool Arith ZArith QArith Qabs Lia Lqa List.
From Stdlib Require Import DecimalString.
From Stdlib Require Floats.
Import ListNotations.

(** ** Exceptions *)

Inductive exn : Type :=
| ValueError (msg : string)
| DownloadError.

Inductive result (A : Type) : Type :=
| Ok (a : A)
| Raise (e : exn).

Arguments Ok {A} a.
Arguments Raise {A} e.

Definition bind {A B : Type} (r : result A) (k : A -> result B) : result B :=
  match r with
  | Ok a => k a
  | Raise e => Raise e
  end.

Notation "x <- r ;; k" := (bind r (fun x => k))
  (at level 61, r at next level, right associativity).

(** ** Floats *)

Module Num.

Inductive pyfloat : Type :=
| Fin (q : Q)
| NaN.

Definition isnan (v : pyfloat) : bool :=
  match v with
  | NaN => true
  | Fin _ => false
  end.

Definition Qlt_bool (a b : Q) : bool := negb (Qle_bool b a).

(** Comparisons with a NaN operand are False, [!=] apart. *)
Definition flt (a b : pyfloat) : bool :=
  match a, b with
  | Fin x, Fin y => Qlt_bool x y
  | _, _ => false
  end.

Definition fgt (a b : pyfloat) : bool := flt b a.

Definition feq (a b : pyfloat) : bool :=
  match a, b with
  | Fin x, Fin y => Qeq_bool x y
  | _, _ => false
  end.

Definition fne (a b : pyfloat) : bool := negb (feq a b).

Definition lift2 (f : Q -> Q -> Q) (a b : pyfloat) : pyfloat :=
  match a, b with
  | Fin x, Fin y => Fin (f x y)
  | _, _ => NaN
  end.

Definition fadd : pyfloat -> pyfloat -> pyfloat := lift2 Qplus.
Definition fsub : pyfloat -> pyfloat -> pyfloat := lift2 Qminus.
Definition fmul : pyfloat -> pyfloat -> pyfloat := lift2 Qmult.

Definition fneg (a : pyfloat) : pyfloat :=
  match a with
  | Fin x => Fin (- x)
  | NaN => NaN
  end.

(** IEEE gives an infinity or NaN for a zero divisor; the model has no
    infinities and gives NaN. *)
Definition fdiv (a b : pyfloat) : pyfloat :=
  match a, b with
  | Fin x, Fin y => if Qeq_bool y 0 then NaN else Fin (x / y)
  | _, _ => NaN
  end.

Definition of_int (z : Z) : pyfloat := Fin (inject_Z z).
Definition of_nat (n : nat) : pyfloat := of_int (Z.of_nat n).

End Num.

Import Num.

Declare Scope py_scope.
Delimit Scope py_scope with py.
Bind Scope py_scope with pyfloat.
Infix "+" := fadd : py_scope.
Infix "-" := fsub : py_scope.
Infix "*" := fmul : py_scope.
Infix "/" := fdiv : py_scope.
Notation "- x" := (fneg x) : py_scope.
Infix "<?" := flt : py_scope.
Infix ">?" := fgt : py_scope.
Infix "=?" := feq : py_scope.
Infix "!=?" := fne (at level 70) : py_scope.

(** Float literals of the source. *)
Definition f0 : pyfloat := Fin 0.
Definition f1 : pyfloat := Fin 1.
Definition f30 : pyfloat := Fin 30.
Definition f50 : pyfloat := Fin 50.
Definition f70 : pyfloat := Fin 70.
Definition f100 : pyfloat := Fin 100.
(** [0.0001] is no double: the literal is the double nearest to it,
    7378697629483821 / 2^66. *)
Definition f0_0001 : pyfloat :=
  Fin (7378697629483821 # 73786976294838206464).

(** ** pandas and NumPy *)

Module Pd.

(** [Series.fillna(method='ffill')]: a missing value takes the last value
    seen before it; a leading run of missing values stays missing. *)
Fixpoint ffill_from (last : pyfloat) (l : list pyfloat) : list pyfloat :=
  match l with
  | [] => []
  | x :: r =>
      let v := if isnan x then last else x in
      v :: ffill_from v r
  end.

Definition ffill (l : list pyfloat) : list pyfloat := ffill_from NaN l.

(** [Series.diff()]: the first position has no predecessor and is NaN. *)
Fixpoint diff_from (prev : pyfloat) (l : list pyfloat) : list pyfloat :=
  match l with
  | [] => []
  | x :: r => (x - prev)%py :: diff_from x r
  end.

Definition diff (l : list pyfloat) : list pyfloat := diff_from NaN l.

(** Element-wise operation on two aligned arrays. *)
Fixpoint map2 {A B C : Type} (f : A -> B -> C) (l : list A) (m : list B)
  : list C :=
  match l, m with
  | a :: l', b :: m' => f a b :: map2 f l' m'
  | _, _ => []
  end.

Definition fsum (l : list pyfloat) : pyfloat := fold_left fadd l f0.

(** The observations of one window: missing values are skipped. *)
Definition observations (win : list pyfloat) : list pyfloat :=
  filter (fun v => negb (isnan v)) win.

(** Mean of one window under [min_periods]: NaN when the window holds
    fewer observations than that. *)
Definition window_mean (min_periods : nat) (win : list pyfloat) : pyfloat :=
  let obs := observations win in
  if (length obs <? min_periods)%nat then NaN
  else (fsum obs / of_nat (length obs))%py.

(** The trailing window that ends at position [i]: the last
    [min (i + 1) window] values up to and including [i]. *)
Definition window_at (window : nat) (xs : list pyfloat) (i : nat)
  : list pyfloat :=
  skipn (S i - window) (firstn (S i) xs).

(** [Series.rolling(window, min_periods).mean()].  pandas refuses a window
    shorter than [min_periods] with a ValueError. *)
Definition rolling_mean (window min_periods : nat) (xs : list pyfloat)
  : result (list pyfloat) :=
  if (window <? min_periods)%nat
  then Raise (ValueError "min_periods must be <= window")
  else Ok (map (fun i => window_mean min_periods (window_at window xs i))
               (seq 0 (length xs))).

(** [Series.iloc[index]] with Python's negative indices; [None] stands
    for the IndexError of a position outside the series. *)
Definition iloc (xs : list pyfloat) (index : Z) : option pyfloat :=
  let n := Z.of_nat (length xs) in
  let i := (if index <? 0 then n + index else index)%Z in
  if ((i <? 0) || (n <=? i))%Z then None
  else nth_error xs (Z.to_nat i).

End Pd.

Import Pd.

(** ** The RSI estimator *)

Definition up_values (delta : list pyfloat) : list pyfloat :=
  map (fun d => if (d >? f0)%py then d else f0) delta.

Definition down_values (delta : list pyfloat) : list pyfloat :=
  map (fun d => if (d <? f0)%py then (- d)%py else f0) delta.

(** [avg_down = np.where(avg_down == 0, 0.0001, avg_down)] *)
Definition avoid_zero (avg_down : list pyfloat) : list pyfloat :=
  map (fun a => if (a =? f0)%py then f0_0001 else a) avg_down.

Definition calculate_rsi (data : list pyfloat) (window : nat)
  : result (list pyfloat) :=
  let data := ffill data in
  let delta := diff data in
  let up := up_values delta in
  let down := down_values delta in
  avg_up <- rolling_mean window 1 up ;;
  avg_down <- rolling_mean window 1 down ;;
  let avg_down := avoid_zero avg_down in
  let rs := map2 fdiv avg_up avg_down in
  let rsi := map (fun r => (f100 - f100 / (f1 + r))%py) rs in
  let rsi := map2 (fun a r => if (a =? f0_0001)%py then f100 else r)
                  avg_down rsi in
  let rsi := map (fun r => if isnan r then f50 else r) rsi in
  Ok rsi.

(** The default [window=14] of the source. *)
Definition default_window : nat := 14.

(** The trailing average gain and loss of [calculate_rsi] before the
    zero-loss substitution, for statements about them. *)
Definition avg_gain (data : list pyfloat) (window : nat)
  : result (list pyfloat) :=
  rolling_mean window 1 (up_values (diff (ffill data))).

Definition avg_loss (data : list pyfloat) (window : nat)
  : result (list pyfloat) :=
  rolling_mean window 1 (down_values (diff (ffill data))).

(** ** The classifier *)

Open Scope string_scope.

Definition get_rsi_signal (rsi_value : pyfloat) : string * string :=
  if isnan rsi_value then ("Neutral", "neutral")
  else if (rsi_value <? f30)%py then ("Buy", "buy")
  else if (rsi_value >? f70)%py then ("Sell", "sell")
  else ("Neutral", "neutral").

(** ** The aggregator *)

(** [-1 if rsi > 70 else (1 if rsi < 30 else 0)] *)
Definition rsi_score (rsi : pyfloat) : Z :=
  if (rsi >? f70)%py then (-1)%Z else if (rsi <? f30)%py then 1%Z else 0%Z.

(** [50 if np.isnan(rsi) else rsi] *)
Definition nan_to_50 (rsi : pyfloat) : pyfloat :=
  if isnan rsi then f50 else rsi.

Definition f0_5 : pyfloat := Fin (5 # 10).
Definition f0_3 : pyfloat := Fin (3 # 10).
Definition f0_2 : pyfloat := Fin (2 # 10).

(** [daily_score * 0.5 + weekly_score * 0.3 + monthly_score * 0.2] *)
Definition weighted_score (daily_score weekly_score monthly_score : Z)
  : pyfloat :=
  (of_int daily_score * f0_5 + of_int weekly_score * f0_3
   + of_int monthly_score * f0_2)%py.

(** The clause a timeframe adds to the reason, if any. *)
Definition timeframe_detail (name : string) (score : Z) : list string :=
  if (score =? 1)%Z then [name ++ " RSI indicates oversold conditions"]
  else if (score =? -1)%Z then [name ++ " RSI indicates overbought conditions"]
  else [].

Definition get_overall_signal (daily_rsi weekly_rsi monthly_rsi : pyfloat)
  : string * string * string :=
  let daily_rsi := nan_to_50 daily_rsi in
  let weekly_rsi := nan_to_50 weekly_rsi in
  let monthly_rsi := nan_to_50 monthly_rsi in
  let daily_score := rsi_score daily_rsi in
  let weekly_score := rsi_score weekly_rsi in
  let monthly_score := rsi_score monthly_rsi in
  let total_score := weighted_score daily_score weekly_score monthly_score in
  let '(signal, signal_class, reason) :=
    if (total_score >? f0_3)%py then
      ("Strong Buy", "buy", "Most timeframes show oversold conditions.")
    else if (total_score >? f0)%py then
      ("Buy", "buy", "RSI suggests bullish momentum building.")
    else if (total_score <? - f0_3)%py then
      ("Strong Sell", "sell", "Most timeframes show overbought conditions.")
    else if (total_score <? f0)%py then
      ("Sell", "sell", "RSI suggests bearish momentum building.")
    else
      ("Neutral", "neutral",
       "Conflicting signals across timeframes. Consider waiting.") in
  let timeframe_details :=
    (timeframe_detail "Daily" daily_score
     ++ timeframe_detail "Weekly" weekly_score
     ++ timeframe_detail "Monthly" monthly_score)%list in
  let reason :=
    match timeframe_details with
    | [] => reason
    | _ => reason ++ " " ++ String.concat ", " timeframe_details ++ "."
    end in
  (signal, signal_class, reason).

(** The score the aggregator computes from its three inputs. *)
Definition total_score (daily_rsi weekly_rsi monthly_rsi : pyfloat) : pyfloat :=
  weighted_score (rsi_score (nan_to_50 daily_rsi))
                 (rsi_score (nan_to_50 weekly_rsi))
                 (rsi_score (nan_to_50 monthly_rsi)).

(** ** Text *)

Definition nl : string := String (ascii_of_nat 10) EmptyString.

(** The bullet of the messages, U+2022 in UTF-8. *)
Definition bullet : string :=
  String (ascii_of_nat 226)
    (String (ascii_of_nat 128) (String (ascii_of_nat 162) EmptyString)).

(** Decimal digits of a non-negative integer. *)
Definition dec (z : Z) : string :=
  NilZero.string_of_uint (N.to_uint (Z.to_N z)).

Fixpoint zeros (n : nat) : string :=
  match n with
  | O => ""
  | S n' => "0" ++ zeros n'
  end.

(** Zero-padding to [width] digits, as [%02d] does. *)
Definition pad (width : nat) (z : Z) : string :=
  let d := dec z in
  zeros (width - String.length d) ++ d.

(** Nearest integer of a non-negative rational, ties to even. *)
Definition round_half_even (q : Q) : Z :=
  let n := Qnum q in
  let d := Z.pos (Qden q) in
  let fl := (n / d)%Z in
  match (2 * (n mod d) ?= d)%Z with
  | Lt => fl
  | Gt => (fl + 1)%Z
  | Eq => if Z.even fl then fl else (fl + 1)%Z
  end.

(** The format [{x:.2f}]: two decimals of the exact value, ties to even,
    with the sign kept when the digits are all zero. *)
Definition format_2f (v : pyfloat) : string :=
  match v with
  | NaN => "nan"
  | Fin q =>
      let n := round_half_even (Qabs q * 100) in
      (if Qlt_bool q 0 then "-" else "")
      ++ dec (n / 100) ++ "." ++ pad 2 (n mod 100)
  end.

(** ** Binary64 *)

(** The operations of the source on doubles, on Rocq's primitive floats:
    the price change of a refresh with its text, and the estimator. *)
Module Double.
Import Floats.

#[local] Set Warnings "-inexact-float".

(** The double nearest a rational, ties to even, and the rational itself
    when it is a double.  The quotient is cut after 64 bits or more and one
    more bit records whether anything was cut off; rounding that integer
    is rounding the quotient. *)
Definition of_Q (q : Q) : float :=
  let n := Qnum q in
  let d := Z.pos (Qden q) in
  let k := Z.max 0 (64 + Z.log2 d - Z.log2 (Z.abs n)) in
  let scaled := (Z.abs n * 2 ^ k)%Z in
  let sticky := if (scaled mod d =? 0)%Z then 0%Z else 1%Z in
  let m := (2 * (scaled / d) + sticky)%Z in
  SF2Prim (SpecFloat.binary_normalize prec emax
             (if (n <? 0)%Z then (- m)%Z else m) (- k - 1) false).

Definition of_pyfloat (v : pyfloat) : float :=
  match v with
  | Num.Fin q => of_Q q
  | Num.NaN => nan
  end.

(** The value of the finite double of mantissa [m] and exponent [e]. *)
Definition magnitude (m : positive) (e : Z) : Q :=
  if (0 <=? e)%Z then inject_Z (Z.pos m * 2 ^ e)
  else Z.pos m # Z.to_pos (2 ^ (- e)).

(** The format [{x:.2f}] of a double: two decimals of its exact value,
    ties to even, under the sign of the double. *)
Definition format_2f (x : float) : string :=
  match Prim2SF x with
  | SpecFloat.S754_nan => "nan"
  | SpecFloat.S754_infinity s => (if s then "-" else "") ++ "inf"
  | SpecFloat.S754_zero s => (if s then "-" else "") ++ "0.00"
  | SpecFloat.S754_finite s m e =>
      (if s then "-" else "") ++ format_2f (Fin (magnitude m e))
  end.

(** Float literals of the source. *)
Definition f0 : float := 0%float.
Definition f50 : float := 50%float.
Definition f100 : float := 100%float.
Definition f0_0001 : float := 0.0001%float.

(** [((current_price - prev_close) / prev_close) * 100 if prev_close != 0
    else 0] *)
Definition price_change_pct (current_price prev_close : float) : float :=
  if negb (prev_close =? 0)%float
  then ((current_price - prev_close) / prev_close * 100)%float
  else 0%float.

(** *** The estimator on doubles *)

Fixpoint ffill_from (last : float) (l : list float) : list float :=
  match l with
  | [] => []
  | x :: r =>
      let v := if is_nan x then last else x in
      v :: ffill_from v r
  end.

Definition ffill (l : list float) : list float := ffill_from nan l.

Fixpoint diff_from (prev : float) (l : list float) : list float :=
  match l with
  | [] => []
  | x :: r => (x - prev)%float :: diff_from x r
  end.

Definition diff (l : list float) : list float := diff_from nan l.

(** [np.where(delta > 0, delta, 0)] and [np.where(delta < 0, -delta, 0)] *)
Definition up_values (delta : list float) : list float :=
  map (fun d => if (0 <? d)%float then d else 0%float) delta.

Definition down_values (delta : list float) : list float :=
  map (fun d => if (d <? 0)%float then (- d)%float else 0%float) delta.

(** [avg_down = np.where(avg_down == 0, 0.0001, avg_down)] *)
Definition avoid_zero (avg_down : list float) : list float :=
  map (fun a => if (a =? 0)%float then 0.0001%float else a) avg_down.

Section Rolling.

(** [Series.rolling(window, min_periods).mean()] on doubles.  pandas
    keeps a running sum per window and documents no rounding of it, so
    the estimator takes the rolling mean as it comes. *)
Variable rolling_mean : nat -> nat -> list float -> result (list float).

Definition calculate_rsi (data : list float) (window : nat)
  : result (list float) :=
  let data := ffill data in
  let delta := diff data in
  let up := up_values delta in
  let down := down_values delta in
  avg_up <- rolling_mean window 1 up ;;
  avg_down <- rolling_mean window 1 down ;;
  let avg_down := avoid_zero avg_down in
  let rs := map2 div avg_up avg_down in
  let rsi := map (fun r => (100 - 100 / (1 + r))%float) rs in
  let rsi := map2 (fun a r => if (a =? 0.0001)%float then 100%float else r)
                  avg_down rsi in
  let rsi := map (fun r => if is_nan r then 50%float else r) rsi in
  Ok rsi.

(** The trailing average gain and loss of [calculate_rsi] before the
    zero-loss substitution. *)
Definition avg_gain (data : list float) (window : nat)
  : result (list float) :=
  rolling_mean window 1 (up_values (diff (ffill data))).

Definition avg_loss (data : list float) (window : nat)
  : result (list float) :=
  rolling_mean window 1 (down_values (diff (ffill data))).

End Rolling.

(** The value an RSI position takes from its trailing average gain and
    loss: the last five statements of [calculate_rsi] at one position. *)
Definition rsi_at (avg_up avg_down : float) : float :=
  let avg_down := if (avg_down =? 0)%float then 0.0001%float else avg_down in
  let rs := (avg_up / avg_down)%float in
  let rsi := (100 - 100 / (1 + rs))%float in
  let rsi := if (avg_down =? 0.0001)%float then 100%float else rsi in
  if is_nan rsi then 50%float else rsi.

(** A rolling mean that keeps the length of the series, as that of pandas
    does. *)
Definition keeps_length
  (rolling_mean : nat -> nat -> list float -> result (list float)) : Prop :=
  forall (window min_periods : nat) (xs means : list float),
    rolling_mean window min_periods xs = Ok means ->
    length means = length xs.

Definition of_nat (n : nat) : float := of_uint63 (Uint63.of_Z (Z.of_nat n)).

(** The rolling mean that sums the observations of each window from the
    left and divides by their number; where the sums are exact it is the
    mean of any way of summing. *)

Definition window_mean (min_periods : nat) (win : list float) : float :=
  let obs := filter (fun v => negb (is_nan v)) win in
  if (length obs <? min_periods)%nat then nan
  else (fold_left add obs 0 / of_nat (length obs))%float.

Definition plain_rolling_mean (window min_periods : nat) (xs : list float)
  : result (list float) :=
  if (window <? min_periods)%nat
  then Raise (ValueError "min_periods must be <= window")
  else Ok (map (fun i => window_mean min_periods
                           (skipn (S i - window) (firstn (S i) xs)))
               (seq 0 (length xs))).

(** The closes 0.0004, 0.0008, 0.0004, 0.0004: one rise and one fall of
    the same size. *)
Definition rise_and_fall : list float :=
  [0.0004%float; 0.0008%float; 0.0004%float; 0.0004%float].


(** The closes 0.3 and 0.2999, whose difference as doubles is not the
    double 0.0001. *)
Definition near_miss : list float := [0.3%float; 0.2999%float].

End Double.

(** ** Clock *)

Record datetime : Type := {
  year : Z;
  month : Z;
  day : Z;
  hour : Z;
  minute : Z;
  second : Z;
  microsecond : Z
}.

Module Date.

Definition is_leap (y : Z) : bool :=
  ((y mod 4 =? 0) && (negb (y mod 100 =? 0) || (y mod 400 =? 0)))%Z.

Definition days_before_year (y : Z) : Z :=
  let y := (y - 1)%Z in
  (y * 365 + y / 4 - y / 100 + y / 400)%Z.

Definition days_before_month (y m : Z) : Z :=
  (nth (Z.to_nat m) [-1; 0; 31; 59; 90; 120; 151; 181; 212; 243; 273; 304; 334] 0
   + (if (2 <? m) && is_leap y then 1 else 0))%Z.

Definition toordinal (d : datetime) : Z :=
  (days_before_year (year d) + days_before_month (year d) (month d) + day d)%Z.

(** Monday is 0, Sunday is 6. *)
Definition weekday (d : datetime) : Z := ((toordinal d + 6) mod 7)%Z.

Definition fields (d : datetime) : list Z :=
  [year d; month d; day d; hour d; minute d; second d; microsecond d].

Fixpoint lex_leb (a b : list Z) : bool :=
  match a, b with
  | x :: a', y :: b' =>
      if (x <? y)%Z then true
      else if (y <? x)%Z then false
      else lex_leb a' b'
  | _, _ => true
  end.

(** [a <= b] on two readings of one time zone. *)
Definition leb (a b : datetime) : bool := lex_leb (fields a) (fields b).

(** [now.replace(hour=h, minute=m, second=0)]: the date and the
    microsecond are kept. *)
Definition replace_hms (d : datetime) (h m s : Z) : datetime :=
  {| year := year d; month := month d; day := day d;
     hour := h; minute := m; second := s;
     microsecond := microsecond d |}.

Definition month_abbr (m : Z) : string :=
  nth (Z.to_nat m)
      [""; "Jan"; "Feb"; "Mar"; "Apr"; "May"; "Jun";
       "Jul"; "Aug"; "Sep"; "Oct"; "Nov"; "Dec"] "".

(** [strftime("%Y-%m-%d %H:%M:%S")] *)
Definition strftime_stamp (d : datetime) : string :=
  pad 4 (year d) ++ "-" ++ pad 2 (month d) ++ "-" ++ pad 2 (day d) ++ " "
  ++ pad 2 (hour d) ++ ":" ++ pad 2 (minute d) ++ ":" ++ pad 2 (second d).

(** [strftime('%d %b %Y')] *)
Definition strftime_day (d : datetime) : string :=
  pad 2 (day d) ++ " " ++ month_abbr (month d) ++ " " ++ pad 4 (year d).

End Date.

(** Market hours: 9:15 AM to 3:30 PM, Monday to Friday.  [now] is the
    reading of the exchange's clock that the source takes itself. *)
Definition is_market_open (now : datetime) : bool :=
  if (5 <=? Date.weekday now)%Z then false
  else
    let market_open := Date.replace_hms now 9 15 0 in
    let market_close := Date.replace_hms now 15 30 0 in
    Date.leb market_open now && Date.leb now market_close.

(** ** The stored data *)

(** A value of the [latest_data] dict: the initial dict holds integers
    and strings, a refreshed one holds strings only. *)
Inductive pyval : Type :=
| PyInt (z : Z)
| PyStr (s : string).

(** [==] against a string. *)
Definition eq_str (v : pyval) (s : string) : bool :=
  match v with
  | PyStr t => String.eqb t s
  | PyInt _ => false
  end.

(** [str(v)], as an f-string inserts it. *)
Definition str (v : pyval) : string :=
  match v with
  | PyStr s => s
  | PyInt z => (if (z <? 0)%Z then "-" else "") ++ dec (Z.abs z)
  end.

(** The dict [latest_data], one field per key. *)
Module Snap.
Record t : Type := {
  last_updated : pyval;
  current_price : pyval;
  price_change : pyval;
  daily_rsi : pyval;
  weekly_rsi : pyval;
  monthly_rsi : pyval;
  daily_signal : pyval;
  weekly_signal : pyval;
  monthly_signal : pyval;
  daily_signal_class : pyval;
  weekly_signal_class : pyval;
  monthly_signal_class : pyval;
  overall_signal : pyval;
  overall_signal_class : pyval;
  recommendation_reason : pyval
}.
End Snap.

Definition not_updated_yet : string := "Not updated yet".

(** The value of [latest_data] at start-up. *)
Definition initial_latest_data : Snap.t := {|
  Snap.last_updated := PyStr not_updated_yet;
  Snap.current_price := PyInt 0;
  Snap.price_change := PyInt 0;
  Snap.daily_rsi := PyInt 0;
  Snap.weekly_rsi := PyInt 0;
  Snap.monthly_rsi := PyInt 0;
  Snap.daily_signal := PyStr "Neutral";
  Snap.weekly_signal := PyStr "Neutral";
  Snap.monthly_signal := PyStr "Neutral";
  Snap.daily_signal_class := PyStr "neutral";
  Snap.weekly_signal_class := PyStr "neutral";
  Snap.monthly_signal_class := PyStr "neutral";
  Snap.overall_signal := PyStr "Neutral";
  Snap.overall_signal_class := PyStr "neutral";
  Snap.recommendation_reason := PyStr "Waiting for first analysis"
|}.

(** ** Price frames *)

(** One row of a downloaded frame.  The open, high and low columns only
    feed the charts and are left out. *)
Record bar : Type := {
  stamp : datetime;
  close : pyfloat
}.

Definition frame : Type := list bar.

Definition Close (df : frame) : list pyfloat := map close df.
Definition index (df : frame) : list datetime := map stamp df.

Definition empty (df : frame) : bool :=
  match df with
  | [] => true
  | _ :: _ => false
  end.

Definition safe_get_value (series : list pyfloat) (index : Z)
  (default : pyfloat) : pyfloat :=
  match iloc series index with
  | Some value => if isnan value then default else value
  | None => default
  end.

(** The price change of the two closes, computed on the doubles they
    are.  The handler around it in the source is not reached:
    [safe_get_value] raises nothing and no operation of binary64 raises. *)
Definition price_change_of (current_price prev_close : pyfloat)
  : PrimFloat.float :=
  Double.price_change_pct (Double.of_pyfloat current_price)
                          (Double.of_pyfloat prev_close).

(** ** The world of one refresh *)

Inductive interval : Type := I1d | I1wk | I1mo.

(** What one invocation of [update_data] reads from outside: the answer
    of the data provider per interval and the readings of the clock, one
    per call of [datetime.now] that the invocation can reach. *)
Record env : Type := {
  download : interval -> result frame;
  now_stamp : datetime;
  now_market : datetime;
  now_close : datetime;
  now_summary : datetime
}.

(** ** Messages *)

(** The three RSI readings of a refresh: the last value of each series,
    50 when it is missing. *)
Definition last_rsi (df : frame) : result pyfloat :=
  rsi_series <- calculate_rsi (Close df) default_window ;;
  Ok (safe_get_value rsi_series (-1) f50).

(** The first line of each message up to its date. *)
Definition summary_headline : string := nl ++ "*Nifty50 Daily Summary: ".
Definition update_headline : string := nl ++ "*Nifty50 Update: ".

Definition generate_daily_summary (w : env)
  (daily_data weekly_data monthly_data : frame) : result string :=
  daily_rsi_value <- last_rsi daily_data ;;
  weekly_rsi_value <- last_rsi weekly_data ;;
  monthly_rsi_value <- last_rsi monthly_data ;;
  let '(daily_signal, _) := get_rsi_signal daily_rsi_value in
  let '(weekly_signal, _) := get_rsi_signal weekly_rsi_value in
  let '(monthly_signal, _) := get_rsi_signal monthly_rsi_value in
  let '(overall_signal, _, recommendation_reason) :=
    get_overall_signal daily_rsi_value weekly_rsi_value monthly_rsi_value in
  let current_price := safe_get_value (Close daily_data) (-1) f50 in
  let prev_close := safe_get_value (Close daily_data) (-2) f50 in
  let price_change_pct := price_change_of current_price prev_close in
  let date_str :=
    match last (map Some (index daily_data)) None with
    | Some d => Date.strftime_day d
    | None => Date.strftime_day (now_summary w)
    end in
  Ok (summary_headline ++ date_str ++ "*" ++ nl
      ++ nl
      ++ "*Closing Price:* " ++ format_2f current_price
      ++ " (" ++ Double.format_2f price_change_pct ++ "%)" ++ nl
      ++ nl
      ++ "*RSI Analysis:*" ++ nl
      ++ bullet ++ " Daily RSI: " ++ format_2f daily_rsi_value
      ++ " - " ++ daily_signal ++ nl
      ++ bullet ++ " Weekly RSI: " ++ format_2f weekly_rsi_value
      ++ " - " ++ weekly_signal ++ nl
      ++ bullet ++ " Monthly RSI: " ++ format_2f monthly_rsi_value
      ++ " - " ++ monthly_signal ++ nl
      ++ nl
      ++ "*Overall Recommendation: " ++ overall_signal ++ "*" ++ nl
      ++ recommendation_reason ++ nl
      ++ nl
      ++ "Next update will be available after market open tomorrow." ++ nl).

(** The message of the live update, built from the refreshed dict. *)
Definition update_message (latest_data : Snap.t) : string :=
  update_headline ++ str (Snap.last_updated latest_data) ++ "*" ++ nl
  ++ nl
  ++ "*Current Price:* " ++ str (Snap.current_price latest_data)
  ++ " (" ++ str (Snap.price_change latest_data) ++ "%)" ++ nl
  ++ nl
  ++ "*RSI Analysis:*" ++ nl
  ++ bullet ++ " Daily: " ++ str (Snap.daily_rsi latest_data)
  ++ " - " ++ str (Snap.daily_signal latest_data) ++ nl
  ++ bullet ++ " Weekly: " ++ str (Snap.weekly_rsi latest_data)
  ++ " - " ++ str (Snap.weekly_signal latest_data) ++ nl
  ++ bullet ++ " Monthly: " ++ str (Snap.monthly_rsi latest_data)
  ++ " - " ++ str (Snap.monthly_signal latest_data) ++ nl
  ++ nl
  ++ "*Recommendation: " ++ str (Snap.overall_signal latest_data) ++ "*" ++ nl
  ++ str (Snap.recommendation_reason latest_data) ++ nl.

(** The two kinds of message, told apart by their headline. *)
Definition is_live_update (message : string) : bool :=
  String.prefix update_headline message.

Definition is_daily_summary (message : string) : bool :=
  String.prefix summary_headline message.

(** ** The refresh *)

(** The download block of [update_data]: the three frames in the order
    daily, weekly, monthly, each refused when empty; the first failure
    ends the block. *)
Definition fetch (w : env) (i : interval) (what : string) : result frame :=
  df <- download w i ;;
  if empty df then Raise (ValueError ("Empty " ++ what ++ " data"))
  else Ok df.

Definition fetch_all (w : env) : result (frame * frame * frame) :=
  daily_data <- fetch w I1d "daily" ;;
  weekly_data <- fetch w I1wk "weekly" ;;
  monthly_data <- fetch w I1mo "monthly" ;;
  Ok (daily_data, weekly_data, monthly_data).

(** What one invocation leaves behind: the dict, the messages handed to
    the Telegram bot in order, and the returned status. *)
Record outcome : Type := {
  data_after : Snap.t;
  sent : list string;
  status : bool
}.

(** The dict a successful refresh stores. *)
Definition refreshed (w : env) (daily_data : frame)
  (daily_rsi_value weekly_rsi_value monthly_rsi_value : pyfloat) : Snap.t :=
  let '(daily_signal, daily_signal_class) := get_rsi_signal daily_rsi_value in
  let '(weekly_signal, weekly_signal_class) :=
    get_rsi_signal weekly_rsi_value in
  let '(monthly_signal, monthly_signal_class) :=
    get_rsi_signal monthly_rsi_value in
  let '(overall_signal, overall_signal_class, recommendation_reason) :=
    get_overall_signal daily_rsi_value weekly_rsi_value monthly_rsi_value in
  let current_price := safe_get_value (Close daily_data) (-1) f50 in
  let prev_close := safe_get_value (Close daily_data) (-2) f50 in
  let price_change_pct := price_change_of current_price prev_close in
  {| Snap.last_updated := PyStr (Date.strftime_stamp (now_stamp w));
     Snap.current_price := PyStr (format_2f current_price);
     Snap.price_change := PyStr (Double.format_2f price_change_pct);
     Snap.daily_rsi := PyStr (format_2f daily_rsi_value);
     Snap.weekly_rsi := PyStr (format_2f weekly_rsi_value);
     Snap.monthly_rsi := PyStr (format_2f monthly_rsi_value);
     Snap.daily_signal := PyStr daily_signal;
     Snap.weekly_signal := PyStr weekly_signal;
     Snap.monthly_signal := PyStr monthly_signal;
     Snap.daily_signal_class := PyStr daily_signal_class;
     Snap.weekly_signal_class := PyStr weekly_signal_class;
     Snap.monthly_signal_class := PyStr monthly_signal_class;
     Snap.overall_signal := PyStr overall_signal;
     Snap.overall_signal_class := PyStr overall_signal_class;
     Snap.recommendation_reason := PyStr recommendation_reason |}.

(** The summary window: [now.hour == 15 and now.minute >= 30 and
    now.minute < 45]. *)
Definition just_closed (now : datetime) : bool :=
  ((hour now =? 15) && (30 <=? minute now) && (minute now <? 45))%Z.

(** [update_data].  An exception of the download block is handled by the
    inner handler; any other exception reaches the outer handler, which
    returns False and leaves what was done before it in place.  The
    charts only write image files and their failure is swallowed, so they
    are not part of the model. *)
Definition update_data (w : env) (latest_data : Snap.t) : outcome :=
  match fetch_all w with
  | Raise _ =>
      if eq_str (Snap.last_updated latest_data) not_updated_yet
      then {| data_after := latest_data; sent := []; status := false |}
      else {| data_after := latest_data; sent := []; status := true |}
  | Ok (daily_data, weekly_data, monthly_data) =>
      match (d <- last_rsi daily_data ;;
             wk <- last_rsi weekly_data ;;
             mo <- last_rsi monthly_data ;;
             Ok (d, wk, mo)) with
      | Raise _ =>
          {| data_after := latest_data; sent := []; status := false |}
      | Ok (daily_rsi_value, weekly_rsi_value, monthly_rsi_value) =>
          let latest_data :=
            refreshed w daily_data
                      daily_rsi_value weekly_rsi_value monthly_rsi_value in
          let sent :=
            if is_market_open (now_market w)
            then [update_message latest_data]
            else [] in
          let now := now_close w in
          if just_closed now then
            match generate_daily_summary w daily_data weekly_data
                                         monthly_data with
            | Raise _ =>
                {| data_after := latest_data; sent := sent; status := false |}
            | Ok summary_message =>
                {| data_after := latest_data;
                   sent := (sent ++ [summary_message])%list;
                   status := true |}
            end
          else {| data_after := latest_data; sent := sent; status := true |}
      end
  end.

(** ** Vocabulary of the statements *)

(** A strictly increasing series of prices. *)
Fixpoint increasing_from (prev : Q) (l : list Q) : bool :=
  match l with
  | [] => true
  | x :: r => Qlt_bool prev x && increasing_from x r
  end.

Definition strictly_increasing (l : list Q) : bool :=
  match l with
  | [] => true
  | x :: r => increasing_from x r
  end.

Definition all_positive (l : list Q) : bool :=
  forallb (fun q => Qlt_bool 0 q) l.

(** A value of the closed interval from 0 to 100. *)
Definition in_0_100 (v : pyfloat) : Prop :=
  match v with
  | Fin q => 0 <= q <= 100
  | NaN => False
  end.

(** The value an RSI position takes from its trailing average gain and
    loss: the last five statements of [calculate_rsi] at one position. *)
Definition rsi_at (avg_up avg_down : pyfloat) : pyfloat :=
  let avg_down := if (avg_down =? f0)%py then f0_0001 else avg_down in
  let rs := (avg_up / avg_down)%py in
  let rsi := (f100 - f100 / (f1 + rs))%py in
  let rsi := if (avg_down =? f0_0001)%py then f100 else rsi in
  if isnan rsi then f50 else rsi.

(** A number that is not negative. *)
Definition nonneg (v : pyfloat) : Prop :=
  match v with
  | Fin q => 0 <= q
  | NaN => False
  end.

(** The divisor that [calculate_rsi] uses for an average loss. *)
Definition loss_divisor (d : pyfloat) : pyfloat :=
  if (d =? f0)%py then f0_0001 else d.

(** The score of a reading, as the specification words it. *)
Definition score_spec (rsi : Q) (score : Z) : Prop :=
  (score = (-1)%Z <-> 70 < rsi)
  /\ (score = 1%Z <-> rsi < 30)
  /\ (score = 0%Z <-> 30 <= rsi /\ rsi <= 70).

(** The rolling means of a series, one per position. *)
Definition means (window : nat) (xs : list pyfloat) : list pyfloat :=
  map (fun i => window_mean 1 (window_at window xs i)) (seq 0 (length xs)).

(** A download that gives nothing to work with: it raised, or the frame
    is empty. *)
Definition unusable (r : result frame) : Prop :=
  match r with
  | Raise _ => True
  | Ok df => df = []
  end.

Definition fetch_failed (w : env) : Prop :=
  unusable (download w I1d) \/ unusable (download w I1wk)
  \/ unusable (download w I1mo).

(** The base sentence of each label and the clause of each score, as the
    specification words them. *)
Definition base_sentence (label : string) : string :=
  if String.eqb label "Strong Buy" then
    "Most timeframes show oversold conditions."
  else if String.eqb label "Buy" then
    "RSI suggests bullish momentum building."
  else if String.eqb label "Strong Sell" then
    "Most timeframes show overbought conditions."
  else if String.eqb label "Sell" then
    "RSI suggests bearish momentum building."
  else "Conflicting signals across timeframes. Consider waiting.".

Definition clause_of (timeframe : string * Z) : option string :=
  let '(name, score) := timeframe in
  match score with
  | 1%Z => Some (name ++ " RSI indicates oversold conditions")
  | (-1)%Z => Some (name ++ " RSI indicates overbought conditions")
  | _ => None
  end.

Fixpoint clauses (timeframes : list (string * Z)) : list string :=
  match timeframes with
  | [] => []
  | t :: r =>
      match clause_of t with
      | Some c => c :: clauses r
      | None => clauses r
      end
  end.

Definition rationale_spec (label : string) (daily weekly monthly : Z)
  : string :=
  match clauses [("Daily", daily); ("Weekly", weekly); ("Monthly", monthly)]
  with
  | [] => base_sentence label
  | cs => base_sentence label ++ " " ++ String.concat ", " cs ++ "."
  end.

(** The label of a total, as the specification words it. *)
Definition label_spec (total : Q) (label : string) : Prop :=
  (label = "Strong Buy" <-> 3 # 10 < total)
  /\ (label = "Buy" <-> 0 < total /\ total <= 3 # 10)
  /\ (label = "Strong Sell" <-> total < - (3 # 10))
  /\ (label = "Sell" <-> - (3 # 10) <= total /\ total < 0)
  /\ (label = "Neutral" <-> total == 0).

(** A reading that has the given score: 80, 20 and 50 for -1, 1 and 0. *)
Definition reading_of_score (score : Z) : pyfloat :=
  Fin (50 - 30 * inject_Z score).

(** ** The weighted score in binary64 *)

Module Binary64.
Import Floats.

#[local] Set Warnings "-inexact-float".

(** The float of a Python integer (of less than 63 bits). *)
Definition of_int (z : Z) : float :=
  if (z <? 0)%Z then (- of_uint63 (Uint63.of_Z (- z)))%float
  else of_uint63 (Uint63.of_Z z).

(** [daily_score * 0.5 + weekly_score * 0.3 + monthly_score * 0.2] *)
Definition weighted_score (daily_score weekly_score monthly_score : Z)
  : float :=
  (of_int daily_score * 0.5 + of_int weekly_score * 0.3
   + of_int monthly_score * 0.2)%float.

(** The chain of comparisons of [get_overall_signal]. *)
Definition label (total_score : float) : string :=
  if (0.3 <? total_score)%float then "Strong Buy"
  else if (0 <? total_score)%float then "Buy"
  else if (total_score <? - 0.3)%float then "Strong Sell"
  else if (total_score <? 0)%float then "Sell"
  else "Neutral".

Definition f0_2 : float := 0.2%float.
Definition f1_0 : float := 1%float.

End Binary64.

(** ** Sample inputs *)

Definition at_time (y mo d h mi s us : Z) : datetime :=
  {| year := y; month := mo; day := d;
     hour := h; minute := mi; second := s; microsecond := us |}.

(** Daily bars from the given closes, dated from 1 January 2025 on. *)
Fixpoint bars_from (d : Z) (closes : list pyfloat) : frame :=
  match closes with
  | [] => []
  | c :: r =>
      {| stamp := at_time 2025 1 d 0 0 0 0; close := c |}
      :: bars_from (d + 1) r
  end.

Definition sample_frame : frame :=
  bars_from 1 [Fin 100; Fin 101; Fin 99].

(** Monday 6 January 2025, 15:30:00 on the exchange's clock: the provider
    answers every interval with [sample_frame]. *)
Definition at_the_close : env := {|
  download := fun _ => Ok sample_frame;
  now_stamp := at_time 2025 1 6 15 30 0 100;
  now_market := at_time 2025 1 6 15 30 0 200;
  now_close := at_time 2025 1 6 15 30 0 300;
  now_summary := at_time 2025 1 6 15 30 0 400
|}.

(** The provider answers the weekly interval with an empty frame. *)
Definition weekly_empty : env := {|
  download := fun i => match i with
                       | I1wk => Ok []
                       | _ => Ok sample_frame
                       end;
  now_stamp := at_time 2025 1 6 10 0 0 0;
  now_market := at_time 2025 1 6 10 0 0 0;
  now_close := at_time 2025 1 6 10 0 0 0;
  now_summary := at_time 2025 1 6 10 0 0 0
|}.


(** A dict as a refresh leaves it. *)
Definition refreshed_once : Snap.t :=
  data_after (update_data at_the_close initial_latest_data).

(** ** Charts *)

Module Cal.

Definition days_in_month : list Z :=
  [-1; 31; 28; 31; 30; 31; 30; 31; 31; 30; 31; 30; 31]%Z.

Definition days_before_month : list Z :=
  [-1; 0; 31; 59; 90; 120; 151; 181; 212; 243; 273; 304; 334]%Z.

(** The year, month and day of an ordinal, 1 January of year 1 being 1. *)
Definition ord2ymd (n : Z) : Z * Z * Z :=
  let n := (n - 1)%Z in
  let n400 := (n / 146097)%Z in
  let n := (n mod 146097)%Z in
  let y := (n400 * 400 + 1)%Z in
  let n100 := (n / 36524)%Z in
  let n := (n mod 36524)%Z in
  let n4 := (n / 1461)%Z in
  let n := (n mod 1461)%Z in
  let n1 := (n / 365)%Z in
  let n := (n mod 365)%Z in
  let y := (y + n100 * 100 + n4 * 4 + n1)%Z in
  if ((n1 =? 4) || (n100 =? 4))%Z then ((y - 1)%Z, 12%Z, 31%Z)
  else
    let leapyear := ((n1 =? 3) && (negb (n4 =? 24) || (n100 =? 3)))%Z in
    let m := Z.shiftr (n + 50) 5 in
    let preceding :=
      (nth (Z.to_nat m) days_before_month 0
       + (if (2 <? m) && leapyear then 1 else 0))%Z in
    if (n <? preceding)%Z then
      let m := (m - 1)%Z in
      let preceding :=
        (preceding
         - (nth (Z.to_nat m) days_in_month 0
            + (if (m =? 2) && leapyear then 1 else 0)))%Z in
      (y, m, (n - preceding + 1)%Z)
    else (y, m, (n - preceding + 1)%Z).

(** [date + datetime.timedelta(days=n)]: the time of day is kept. *)
Definition add_days (d : datetime) (n : Z) : datetime :=
  let '(y, m, dd) := ord2ymd (Date.toordinal d + n) in
  {| year := y; month := m; day := dd;
     hour := hour d; minute := minute d; second := second d;
     microsecond := microsecond d |}.

End Cal.

(** The slice [l[-n:]]. *)
Definition tail_n {A : Type} (n : nat) (l : list A) : list A :=
  skipn (length l - n) l.

(** The item [l[i]] with Python's negative positions; [None] stands for
    the IndexError. *)
Definition item {A : Type} (l : list A) (i : Z) : option A :=
  let n := Z.of_nat (length l) in
  let i := (if i <? 0 then n + i else i)%Z in
  if ((i <? 0) || (n <=? i))%Z then None else nth_error l (Z.to_nat i).

(** [DataFrame.fillna(method='ffill')] on a frame: every column is
    filled, here the closes. *)
Definition fillna (df : frame) : frame :=
  map2 (fun b c => {| stamp := stamp b; close := c |}) df (ffill (Close df)).

(** The points of one line: dates and values, appended together. *)
Definition trace : Type := (list datetime * list pyfloat)%type.

(** The inner loop of a slower timeframe: [copies] points for one
    reading, [stride] days apart, as long as the line has fewer than 30
    points. *)
Definition spread_reading (copies : nat) (stride : Z) (date : datetime)
  (rsi_val : pyfloat) (line : trace) : trace :=
  fold_left
    (fun line i =>
       let '(dates, values) := line in
       if (length dates <? 30)%nat
       then ((dates ++ [Cal.add_days date (Z.of_nat i * stride)])%list,
             (values ++ [rsi_val])%list)
       else line)
    (seq 0 copies) line.

(** The outer loop over the zipped dates and readings: a NaN reading is
    skipped. *)
Definition spread (copies : nat) (stride : Z)
  (points : list (datetime * pyfloat)) : trace :=
  fold_left
    (fun line point =>
       let '(date, rsi_val) := point in
       if isnan rsi_val then line
       else spread_reading copies stride date rsi_val line)
    points ([], []).

(** What the RSI figure holds: the three lines and the end points of the
    two threshold lines at 70 and 30. *)
Record rsi_figure : Type := {
  daily_line : trace;
  weekly_line : trace;
  monthly_line : trace;
  threshold_x0 : datetime;
  threshold_x1 : datetime
}.

(** An image file that [generate_charts] writes. *)
Inductive image : Type :=
| PriceChart (dates : list datetime) (closes : list pyfloat)
| RsiChart (figure : rsi_figure).

Inductive chart_error : Type :=
| IndexOutOfBounds
| EstimatorFailed (e : exn).

(** [generate_charts]: the images written, in order, and the exception
    that ended the function, if any.  The price chart is written before
    the RSI figure is built; the writing itself is taken to succeed. *)
Definition generate_charts (daily_data weekly_data monthly_data : frame)
  : list image * option chart_error :=
  let daily_data := fillna daily_data in
  let written := [PriceChart (index daily_data) (Close daily_data)] in
  match calculate_rsi (Close daily_data) default_window with
  | Raise e => (written, Some (EstimatorFailed e))
  | Ok daily_rsi =>
      let daily := (tail_n 30 (index daily_data), tail_n 30 daily_rsi) in
      let weekly_data := fillna weekly_data in
      match calculate_rsi (Close weekly_data) default_window with
      | Raise e => (written, Some (EstimatorFailed e))
      | Ok weekly_rsi =>
          let weekly :=
            spread 5 1 (combine (tail_n 10 (index weekly_data))
                                (tail_n 10 weekly_rsi)) in
          let monthly_data := fillna monthly_data in
          match calculate_rsi (Close monthly_data) default_window with
          | Raise e => (written, Some (EstimatorFailed e))
          | Ok monthly_rsi =>
              let monthly :=
                spread 6 5 (combine (tail_n 5 (index monthly_data))
                                    (tail_n 5 monthly_rsi)) in
              match item (index daily_data) (-30),
                    item (index daily_data) (-1) with
              | Some x0, Some x1 =>
                  ((written
                    ++ [RsiChart {| daily_line := daily;
                                    weekly_line := weekly;
                                    monthly_line := monthly;
                                    threshold_x0 := x0;
                                    threshold_x1 := x1 |}])%list,
                   None)
              | _, _ => (written, Some IndexOutOfBounds)
              end
          end
      end
  end.

(** ** The update endpoint and runs of refreshes *)

(** [force_update]: one refresh; the answer carries ["success"] or
    ["error"] under the key status. *)
Definition force_update (w : env) (latest_data : Snap.t) : outcome * string :=
  let success := update_data w latest_data in
  (success, if status success then "success" else "error").

(** The refreshes of a run, one world each, every one starting from the
    dict that the one before left. *)
Fixpoint refresh_all (ws : list env) (latest_data : Snap.t) : list outcome :=
  match ws with
  | [] => []
  | w :: ws' =>
      let o := update_data w latest_data in
      o :: refresh_all ws' (data_after o)
  end.

(** ** The schedule *)

(** The instants at which the two cron jobs of [start_scheduler] fire, on
    the exchange's clock: [day_of_week='mon-fri', hour='9-15',
    minute='*/15'] and [day_of_week='mon-fri', hour=15, minute=35]; the
    second, which neither names, is 0. *)
Definition market_hours_update_fires (t : datetime) : bool :=
  ((Date.weekday t <=? 4) && (9 <=? hour t) && (hour t <=? 15)
   && (minute t mod 15 =? 0) && (0 <=? minute t) && (minute t <=? 59)
   && (second t =? 0))%Z.

Definition daily_summary_fires (t : datetime) : bool :=
  ((Date.weekday t <=? 4) && (hour t =? 15) && (minute t =? 35)
   && (second t =? 0))%Z.

(** A reading of the clock in the minute of an instant. *)
Definition same_minute (t now : datetime) : Prop :=
  year now = year t /\ month now = month t /\ day now = day t
  /\ hour now = hour t /\ minute now = minute t
  /\ (0 <= second now < 60)%Z.

(** ** Further vocabulary *)



(** A dict that a refresh has stamped. *)
Definition ready (latest_data : Snap.t) : Prop :=
  eq_str (Snap.last_updated latest_data) not_updated_yet = false.

(** The text of a reading between 0 and 100. *)
Definition reading_text (v : pyval) : Prop :=
  exists r, in_0_100 r /\ v = PyStr (format_2f r).

Definition is_text (v : pyval) : Prop :=
  match v with
  | PyStr _ => True
  | PyInt _ => False
  end.

(** The label and style class of a timeframe and of the recommendation
    that the page knows. *)
Definition timeframe_styles : list (pyval * pyval) :=
  [(PyStr "Buy", PyStr "buy"); (PyStr "Sell", PyStr "sell");
   (PyStr "Neutral", PyStr "neutral")].

Definition overall_styles : list (pyval * pyval) :=
  [(PyStr "Strong Buy", PyStr "buy"); (PyStr "Buy", PyStr "buy");
   (PyStr "Strong Sell", PyStr "sell"); (PyStr "Sell", PyStr "sell");
   (PyStr "Neutral", PyStr "neutral")].

(** The shape of a dict that the page can render in full: it is stamped
    and every field is a string. *)
Definition renderable (s : Snap.t) : Prop :=
  ready s
  /\ is_text (Snap.last_updated s)
  /\ is_text (Snap.current_price s) /\ is_text (Snap.price_change s)
  /\ reading_text (Snap.daily_rsi s) /\ reading_text (Snap.weekly_rsi s)
  /\ reading_text (Snap.monthly_rsi s)
  /\ In (Snap.daily_signal s, Snap.daily_signal_class s) timeframe_styles
  /\ In (Snap.weekly_signal s, Snap.weekly_signal_class s) timeframe_styles
  /\ In (Snap.monthly_signal s, Snap.monthly_signal_class s) timeframe_styles
  /\ In (Snap.overall_signal s, Snap.overall_signal_class s) overall_styles
  /\ is_text (Snap.recommendation_reason s).

(** The summary text that the figures of a dict give. *)
Definition summary_of (s : Snap.t) (date_str : string) : string :=
  summary_headline ++ date_str ++ "*" ++ nl
  ++ nl
  ++ "*Closing Price:* " ++ str (Snap.current_price s)
  ++ " (" ++ str (Snap.price_change s) ++ "%)" ++ nl
  ++ nl
  ++ "*RSI Analysis:*" ++ nl
  ++ bullet ++ " Daily RSI: " ++ str (Snap.daily_rsi s)
  ++ " - " ++ str (Snap.daily_signal s) ++ nl
  ++ bullet ++ " Weekly RSI: " ++ str (Snap.weekly_rsi s)
  ++ " - " ++ str (Snap.weekly_signal s) ++ nl
  ++ bullet ++ " Monthly RSI: " ++ str (Snap.monthly_rsi s)
  ++ " - " ++ str (Snap.monthly_signal s) ++ nl
  ++ nl
  ++ "*Overall Recommendation: " ++ str (Snap.overall_signal s) ++ "*" ++ nl
  ++ str (Snap.recommendation_reason s) ++ nl
  ++ nl
  ++ "Next update will be available after market open tomorrow." ++ nl.

(** Seconds since midnight of a reading. *)
Definition second_of_day (now : datetime) : Z :=
  (hour now * 3600 + minute now * 60 + second now)%Z.

(** Every reading of a slower timeframe drawn [copies] times, with no
    limit on the number of points. *)
Definition every_copy (copies : nat) (stride : Z)
  (points : list (datetime * pyfloat)) : list (datetime * pyfloat) :=
  flat_map
    (fun point =>
       map (fun i => (Cal.add_days (fst point) (Z.of_nat i * stride),
                      snd point))
           (seq 0 copies))
    points.

(** The dates and the values of a list of points. *)
Definition line_of (points : list (datetime * pyfloat)) : trace :=
  (map fst points, map snd points).

(** A number above zero. *)
Definition positive (v : pyfloat) : Prop :=
  match v with
  | Fin q => 0 < q
  | NaN => False
  end.

(** Forty daily bars with rising closes, twelve weekly and seven monthly
    bars. *)
Definition forty_days : frame :=
  map (fun i => {| stamp := Cal.add_days (at_time 2025 1 1 0 0 0 0)
                                          (Z.of_nat i);
                   close := Fin (inject_Z (100 + Z.of_nat i)) |})
      (seq 0 40).

Definition twelve_weeks : frame :=
  map (fun i => {| stamp := Cal.add_days (at_time 2025 1 6 0 0 0 0)
                                          (7 * Z.of_nat i);
                   close := Fin (inject_Z (100 + Z.of_nat (i mod 3))) |})
      (seq 0 12).

Definition seven_months : frame :=
  map (fun i => {| stamp := at_time 2025 (1 + Z.of_nat i) 1 0 0 0 0;
                   close := Fin (inject_Z (100 - Z.of_nat i)) |})
      (seq 0 7).

(** * Properties *)

(** ** The definitions at work *)

(** One rise of 2 and one fall of 1: the RSI is 100 until the fall, then
    200/3 and 100 - 100/(1 + (2/4)/(1/4)) = 200/3 again. *)
Example rsi_rise_and_fall :
  calculate_rsi [Fin 10; Fin 12; Fin 11; Fin 11] default_window
  = Ok [f100; f100; Fin (600 # 9); Fin (800 # 12)].
Proof. reflexivity. Qed.

(** A window of 2 has forgotten the rise at the last position: 0. *)
Example rsi_short_window :
  calculate_rsi [Fin 10; Fin 12; Fin 11; Fin 11] 2
  = Ok [f100; f100; Fin (400 # 6); Fin (0 # 2)].
Proof. reflexivity. Qed.

(** A missing close takes the close before it; a leading one stays. *)
Example ffill_gaps :
  ffill [NaN; Fin 1; NaN; NaN; Fin 2] = [NaN; Fin 1; Fin 1; Fin 1; Fin 2].
Proof. reflexivity. Qed.

Example format_2f_samples :
  format_2f (Fin (123456 # 1000)) = "123.46"
  /\ format_2f (Fin (1 # 8)) = "0.12"
  /\ format_2f (Fin (- 1 # 1000)) = "-0.00"
  /\ format_2f NaN = "nan".
Proof. repeat split; reflexivity. Qed.

Example market_hours :
  Date.weekday (at_time 2025 1 6 0 0 0 0) = 0%Z
  /\ is_market_open (at_time 2025 1 6 9 14 59 0) = false
  /\ is_market_open (at_time 2025 1 6 9 15 0 0) = true
  /\ is_market_open (at_time 2025 1 6 15 30 0 0) = true
  /\ is_market_open (at_time 2025 1 6 15 30 1 0) = false
  /\ is_market_open (at_time 2025 1 4 12 0 0 0) = false.
Proof. repeat split; reflexivity. Qed.

Example stamps :
  Date.strftime_stamp (at_time 2025 1 6 9 5 0 0) = "2025-01-06 09:05:00"
  /\ Date.strftime_day (at_time 2025 1 6 9 5 0 0) = "06 Jan 2025".
Proof. split; reflexivity. Qed.

(** ** Comparisons of rationals *)

Lemma Qlt_bool_true (a b : Q) : Qlt_bool a b = true <-> a < b.
Proof.
  unfold Qlt_bool. rewrite negb_true_iff. split; intro H.
  - apply Qnot_le_lt. intro L. apply Qle_bool_iff in L. congruence.
  - destruct (Qle_bool b a) eqn:E; [|reflexivity].
    apply Qle_bool_iff in E. lra.
Qed.

Lemma Qlt_bool_false (a b : Q) : Qlt_bool a b = false <-> b <= a.
Proof.
  unfold Qlt_bool. rewrite negb_false_iff. apply Qle_bool_iff.
Qed.

Lemma Qeq_bool_false (a b : Q) : Qeq_bool a b = false <-> ~ a == b.
Proof.
  split; intro H.
  - intro E. apply Qeq_bool_iff in E. congruence.
  - destruct (Qeq_bool a b) eqn:E; [|reflexivity].
    apply Qeq_bool_iff in E. contradiction.
Qed.

(** Boolean comparisons in the hypotheses become propositions. *)
Ltac reflect_Q :=
  repeat match goal with
         | H : Qlt_bool _ _ = true |- _ => apply Qlt_bool_true in H
         | H : Qlt_bool _ _ = false |- _ => apply Qlt_bool_false in H
         | H : Qeq_bool _ _ = true |- _ => apply Qeq_bool_iff in H
         | H : Qeq_bool _ _ = false |- _ => apply Qeq_bool_false in H
         end.

(** ** Lists *)

Lemma length_map2 {A B C : Type} (f : A -> B -> C) (l : list A) (m : list B) :
  length (map2 f l m) = Nat.min (length l) (length m).
Proof.
  revert m; induction l as [|a l IH]; intros [|b m]; simpl; auto.
Qed.

Lemma nth_error_map2 {A B C : Type} (f : A -> B -> C) (l : list A)
  (m : list B) (i : nat) :
  nth_error (map2 f l m) i =
  match nth_error l i, nth_error m i with
  | Some a, Some b => Some (f a b)
  | _, _ => None
  end.
Proof.
  revert m i; induction l as [|a l IH]; intros [|b m] [|i]; simpl; auto;
    destruct (nth_error l i); reflexivity.
Qed.

Lemma In_firstn {A : Type} (n : nat) (l : list A) (x : A) :
  In x (firstn n l) -> In x l.
Proof.
  intro H. rewrite <- (firstn_skipn n l). apply in_or_app. now left.
Qed.

Lemma In_skipn {A : Type} (n : nat) (l : list A) (x : A) :
  In x (skipn n l) -> In x l.
Proof.
  intro H. rewrite <- (firstn_skipn n l). apply in_or_app. now right.
Qed.

(** ** The pandas operations keep the length *)

Lemma length_ffill_from (last : pyfloat) (l : list pyfloat) :
  length (ffill_from last l) = length l.
Proof.
  revert last; induction l as [|x l IH]; intro last; simpl; auto.
Qed.

Lemma length_diff_from (prev : pyfloat) (l : list pyfloat) :
  length (diff_from prev l) = length l.
Proof.
  revert prev; induction l as [|x l IH]; intro prev; simpl; auto.
Qed.

Lemma length_means (window : nat) (xs : list pyfloat) :
  length (means window xs) = length xs.
Proof. unfold means. now rewrite length_map, length_seq. Qed.

Lemma length_deltas (data : list pyfloat) :
  length (diff (ffill data)) = length data.
Proof.
  unfold diff, ffill. now rewrite length_diff_from, length_ffill_from.
Qed.

Lemma length_up_values (delta : list pyfloat) :
  length (up_values delta) = length delta.
Proof. apply length_map. Qed.

Lemma length_down_values (delta : list pyfloat) :
  length (down_values delta) = length delta.
Proof. apply length_map. Qed.

Create Rewrite HintDb lengths.
#[local] Hint Rewrite @length_map2 length_means length_up_values
  length_down_values length_deltas Nat.min_id : lengths.

(** ** One position of the estimator *)

Lemma rsi_stages (avg_up avg_down : list pyfloat) :
  map (fun r => if isnan r then f50 else r)
      (map2 (fun a r => if (a =? f0_0001)%py then f100 else r)
            (avoid_zero avg_down)
            (map (fun r => (f100 - f100 / (f1 + r))%py)
                 (map2 fdiv avg_up (avoid_zero avg_down))))
  = map2 rsi_at avg_up avg_down.
Proof.
  revert avg_down; induction avg_up as [|u us IH]; intros [|d ds];
    simpl; try reflexivity.
  f_equal. apply IH.
Qed.

Lemma rsi_at_zero_loss (u d : pyfloat) :
  (d =? f0)%py = true -> rsi_at u d = f100.
Proof. intro H. unfold rsi_at. rewrite H. reflexivity. Qed.


Lemma map2_rsi_at_zero_loss (us ds : list pyfloat) :
  length us = length ds ->
  Forall (fun d => (d =? f0)%py = true) ds ->
  map2 rsi_at us ds = repeat f100 (length ds).
Proof.
  revert ds; induction us as [|u us IH]; intros [|d ds] L H;
    simpl in *; try discriminate; [reflexivity|].
  inversion H as [|? ? Hd Hds]; subst.
  rewrite (rsi_at_zero_loss u d Hd). f_equal. apply IH; [lia|assumption].
Qed.

Lemma loss_divisor_positive (d : pyfloat) :
  nonneg d -> exists q, loss_divisor d = Fin q /\ 0 < q.
Proof.
  intro H. unfold loss_divisor. destruct d as [q|]; [|contradiction].
  simpl in *. destruct (Qeq_bool q 0) eqn:E.
  - eexists. split; [reflexivity|]. reflexivity.
  - exists q. split; [reflexivity|]. apply Qeq_bool_false in E.
    destruct (Qlt_le_dec 0 q) as [L|L]; [exact L|].
    exfalso. apply E. lra.
Qed.

(** Both divisions of [calculate_rsi] at one position: the divisors are
    positive, so neither meets the zero case of [fdiv]. *)
Lemma rsi_at_divisions (u d : pyfloat) :
  nonneg u -> nonneg d ->
  exists qu qd,
    u = Fin qu /\ loss_divisor d = Fin qd /\ 0 < qd
    /\ (u / loss_divisor d)%py = Fin (qu / qd) /\ 0 < 1 + qu / qd
    /\ (f100 / (f1 + u / loss_divisor d))%py = Fin (100 / (1 + qu / qd)).
Proof.
  intros Hu Hd. destruct (loss_divisor_positive d Hd) as (qd & Eq & Pos).
  destruct u as [qu|]; [|contradiction]. simpl in Hu.
  exists qu, qd. rewrite Eq.
  assert (Z1 : Qeq_bool qd 0 = false) by (apply Qeq_bool_false; lra).
  assert (R : 0 <= qu / qd) by (apply Qle_shift_div_l; lra).
  assert (Z2 : Qeq_bool (1 + qu / qd) 0 = false)
    by (apply Qeq_bool_false; lra).
  repeat split; try assumption; try lra.
  - simpl. now rewrite Z1.
  - simpl. rewrite Z1. simpl. now rewrite Z2.
Qed.

Lemma rsi_at_range (u d : pyfloat) :
  nonneg u -> nonneg d -> in_0_100 (rsi_at u d).
Proof.
  intros Hu Hd.
  destruct (rsi_at_divisions u d Hu Hd) as (qu & qd & -> & Eq & Pos & _ & P1 & _).
  simpl in Hu. unfold rsi_at. fold (loss_divisor d). rewrite Eq.
  assert (Z1 : Qeq_bool qd 0 = false) by (apply Qeq_bool_false; lra).
  assert (R : 0 <= qu / qd) by (apply Qle_shift_div_l; lra).
  assert (Z2 : Qeq_bool (1 + qu / qd) 0 = false)
    by (apply Qeq_bool_false; lra).
  simpl. rewrite Z1. simpl. rewrite Z2.
  match goal with
  | |- context [Qeq_bool qd ?e] => destruct (Qeq_bool qd e)
  end; simpl; [lra|].
  assert (0 <= 100 / (1 + qu / qd)) by (apply Qle_shift_div_l; lra).
  assert (100 / (1 + qu / qd) <= 100) by (apply Qle_shift_div_r; lra).
  lra.
Qed.

Lemma map2_rsi_at_range (us ds : list pyfloat) :
  Forall nonneg us -> Forall nonneg ds -> Forall in_0_100 (map2 rsi_at us ds).
Proof.
  intro Hu. revert ds. induction Hu as [|u us Hu _ IH]; intros ds Hd;
    simpl; [constructor|].
  destruct Hd as [|d ds Hd Hds]; constructor.
  - now apply rsi_at_range.
  - now apply IH.
Qed.

(** ** One window *)

Lemma fsum_zeros (l : list pyfloat) : Forall (eq f0) l -> fsum l = f0.
Proof.
  unfold fsum. induction 1 as [|x l <- _ IH]; simpl; [reflexivity|].
  exact IH.
Qed.

Lemma observations_zeros (l : list pyfloat) :
  Forall (eq f0) l -> observations l = l.
Proof.
  unfold observations. induction 1 as [|x l <- _ IH]; simpl; [reflexivity|].
  now rewrite IH.
Qed.

Lemma of_nat_nonzero (n : nat) :
  Qeq_bool (inject_Z (Z.of_nat (S n))) 0 = false.
Proof.
  apply Qeq_bool_false. unfold Qeq, inject_Z. cbn [Qnum Qden]. lia.
Qed.

Lemma window_mean_zeros (win : list pyfloat) :
  win <> [] -> Forall (eq f0) win -> (window_mean 1 win =? f0)%py = true.
Proof.
  intros Hne Hz. unfold window_mean.
  rewrite (observations_zeros _ Hz), (fsum_zeros _ Hz).
  destruct win as [|x win]; [contradiction|].
  cbn [length Nat.ltb Nat.leb]. unfold fdiv, f0, of_nat, of_int, feq.
  rewrite of_nat_nonzero. apply Qeq_bool_iff. unfold Qdiv. ring.
Qed.

Lemma observations_nonneg (l : list pyfloat) :
  Forall nonneg l -> observations l = l.
Proof.
  unfold observations. induction 1 as [|x l Hx _ IH]; simpl; [reflexivity|].
  destruct x; simpl in *; [now rewrite IH|contradiction].
Qed.

Lemma fold_fadd_nonneg (l : list pyfloat) (acc : pyfloat) :
  nonneg acc -> Forall nonneg l -> nonneg (fold_left fadd l acc).
Proof.
  intros Ha Hl. revert acc Ha.
  induction Hl as [|x l Hx _ IH]; intros acc Ha; simpl; [exact Ha|].
  apply IH. destruct acc, x; simpl in *; try contradiction. lra.
Qed.

Lemma window_mean_nonneg (win : list pyfloat) :
  win <> [] -> Forall nonneg win -> nonneg (window_mean 1 win).
Proof.
  intros Hne H. unfold window_mean. rewrite (observations_nonneg _ H).
  destruct win as [|x win]; [contradiction|].
  cbn [length Nat.ltb Nat.leb]. unfold fsum.
  assert (S : nonneg (fold_left fadd (x :: win) f0)).
  { apply fold_fadd_nonneg; [simpl; lra|assumption]. }
  destruct (fold_left fadd (x :: win) f0) as [s|]; [|contradiction].
  unfold fdiv, of_nat, of_int. rewrite of_nat_nonzero. simpl in *.
  apply Qle_shift_div_l; [|lra].
  unfold Qlt, inject_Z. cbn [Qnum Qden]. lia.
Qed.

(** ** Gains and losses *)

Lemma down_values_zeros (delta : list pyfloat) :
  Forall (fun d => (d <? f0)%py = false) delta ->
  Forall (eq f0) (down_values delta).
Proof.
  unfold down_values. induction 1 as [|d delta Hd _ IH]; simpl; constructor.
  - now rewrite Hd.
  - exact IH.
Qed.

Lemma up_values_nonneg (delta : list pyfloat) :
  Forall nonneg (up_values delta).
Proof.
  unfold up_values. induction delta as [|d delta IH]; simpl; constructor;
    [|exact IH].
  destruct d as [q|]; simpl; [|lra].
  destruct (Qlt_bool 0 q) eqn:E; simpl; [|lra].
  apply Qlt_bool_true in E. lra.
Qed.

Lemma down_values_nonneg (delta : list pyfloat) :
  Forall nonneg (down_values delta).
Proof.
  unfold down_values. induction delta as [|d delta IH]; simpl; constructor;
    [|exact IH].
  destruct d as [q|]; simpl; [|lra].
  destruct (Qlt_bool q 0) eqn:E; simpl; [|lra].
  apply Qlt_bool_true in E. lra.
Qed.

(** ** The estimator under a window of at least one *)

Section Window.

Variable window : nat.
Hypothesis window_pos : (1 <= window)%nat.

Lemma rolling_mean_ok (xs : list pyfloat) :
  rolling_mean window 1 xs = Ok (means window xs).
Proof.
  unfold rolling_mean.
  destruct (Nat.ltb_spec window 1) as [L|_]; [lia|reflexivity].
Qed.

(** [calculate_rsi] returns, and its value at a position is [rsi_at] of
    the trailing average gain and loss there. *)
Lemma calculate_rsi_means (data : list pyfloat) :
  calculate_rsi data window =
  Ok (map2 rsi_at (means window (up_values (diff (ffill data))))
                  (means window (down_values (diff (ffill data))))).
Proof.
  unfold calculate_rsi. rewrite !rolling_mean_ok. simpl bind.
  now rewrite rsi_stages.
Qed.

Lemma window_at_nonempty (xs : list pyfloat) (i : nat) :
  (i < length xs)%nat -> window_at window xs i <> [].
Proof.
  intros Hi E. apply (f_equal (@length pyfloat)) in E.
  unfold window_at in E. rewrite length_skipn, length_firstn in E.
  cbn [length] in E. lia.
Qed.

(** A property of every value of a series holds of the mean of each of
    its windows, when it holds of the mean of every non-empty list of such
    values. *)
Lemma means_Forall (P Q : pyfloat -> Prop) (xs : list pyfloat) :
  (forall win, win <> [] -> Forall P win -> Q (window_mean 1 win)) ->
  Forall P xs -> Forall Q (means window xs).
Proof.
  intros HQ HP. unfold means. apply Forall_map, Forall_forall.
  intros i Hi. apply in_seq in Hi. apply HQ.
  - apply window_at_nonempty. lia.
  - apply Forall_forall. intros x Hx. unfold window_at in Hx.
    apply In_skipn, In_firstn in Hx.
    rewrite Forall_forall in HP. auto.
Qed.

Lemma means_zeros (xs : list pyfloat) :
  Forall (eq f0) xs -> Forall (fun d => (d =? f0)%py = true) (means window xs).
Proof. apply means_Forall. exact window_mean_zeros. Qed.

Lemma means_nonneg (xs : list pyfloat) :
  Forall nonneg xs -> Forall nonneg (means window xs).
Proof. apply means_Forall. exact window_mean_nonneg. Qed.

(** When no delta is negative, the RSI is 100 at every position. *)
Lemma rsi_without_losses (data : list pyfloat) :
  Forall (fun d => (d <? f0)%py = false) (diff (ffill data)) ->
  calculate_rsi data window = Ok (repeat f100 (length data)).
Proof.
  intro H. rewrite calculate_rsi_means. f_equal.
  rewrite map2_rsi_at_zero_loss.
  - now autorewrite with lengths.
  - now autorewrite with lengths.
  - apply means_zeros. now apply down_values_zeros.
Qed.

(** [calculate_rsi] never divides by zero: at every position the average
    gain is a number that is not negative and the divisor used for the
    average loss is positive, so the ratio is not negative and one plus
    the ratio is positive. *)
Theorem calculate_rsi_divisors :
  forall data : list pyfloat,
    exists gains losses,
      avg_gain data window = Ok gains
      /\ avg_loss data window = Ok losses
      /\ Forall nonneg gains
      /\ Forall (fun d => exists q, loss_divisor d = Fin q /\ 0 < q) losses.
Proof.
  intro data. unfold avg_gain, avg_loss. rewrite !rolling_mean_ok.
  do 2 eexists. repeat split.
  - apply means_nonneg, up_values_nonneg.
  - eapply Forall_impl; [|apply means_nonneg, down_values_nonneg].
    intros d Hd. now apply loss_divisor_positive.
Qed.

End Window.

(** ** The estimator under any window *)

Lemma calculate_rsi_window_0 (data : list pyfloat) :
  exists e, calculate_rsi data 0 = Raise e.
Proof. eexists. reflexivity. Qed.

Lemma calculate_rsi_length (data out : list pyfloat) (window : nat) :
  calculate_rsi data window = Ok out -> length out = length data.
Proof.
  destruct window as [|w].
  - destruct (calculate_rsi_window_0 data) as [e E]. congruence.
  - rewrite calculate_rsi_means by lia. intro E. injection E as <-.
    autorewrite with lengths. lia.
Qed.

(** Every value that [calculate_rsi] returns lies between 0 and 100. *)
Theorem calculate_rsi_range :
  forall (data out : list pyfloat) (window : nat),
    calculate_rsi data window = Ok out -> Forall in_0_100 out.
Proof.
  intros data out [|w] E.
  - destruct (calculate_rsi_window_0 data) as [e E']. congruence.
  - rewrite calculate_rsi_means in E by lia. injection E as <-.
    apply map2_rsi_at_range; apply means_nonneg;
      try lia; [apply up_values_nonneg|apply down_values_nonneg].
Qed.

(** ** Constant series *)

Lemma ffill_from_repeat (x : pyfloat) (n : nat) :
  ffill_from x (repeat x n) = repeat x n.
Proof.
  induction n as [|n IH]; simpl; [reflexivity|].
  destruct x; simpl; f_equal; exact IH.
Qed.

Lemma ffill_repeat (x : pyfloat) (n : nat) :
  ffill (repeat x n) = repeat x n.
Proof.
  destruct n as [|n]; [reflexivity|]. unfold ffill. simpl.
  destruct x; simpl; f_equal; apply ffill_from_repeat.
Qed.

Lemma self_delta_not_negative (x prev : pyfloat) :
  prev = x \/ prev = NaN -> ((x - prev) <? f0)%py = false.
Proof.
  intros [-> | ->]; destruct x as [q|]; simpl; try reflexivity.
  apply Qlt_bool_false. lra.
Qed.

Lemma diff_from_repeat (x prev : pyfloat) (n : nat) :
  prev = x \/ prev = NaN ->
  Forall (fun d => (d <? f0)%py = false) (diff_from prev (repeat x n)).
Proof.
  revert prev; induction n as [|n IH]; intros prev H; simpl; constructor.
  - now apply self_delta_not_negative.
  - apply IH. now left.
Qed.

(** ** Rising series *)

Lemma ffill_from_finite (last : pyfloat) (l : list Q) :
  ffill_from last (map Fin l) = map Fin l.
Proof.
  revert last; induction l as [|x l IH]; intro last; simpl; [reflexivity|].
  f_equal. apply IH.
Qed.

Lemma diff_from_increasing (p : Q) (l : list Q) :
  increasing_from p l = true ->
  Forall (fun d => (d <? f0)%py = false) (diff_from (Fin p) (map Fin l)).
Proof.
  revert p; induction l as [|x l IH]; intros p H; simpl in *; constructor.
  - apply andb_true_iff in H as [H _]. apply Qlt_bool_true in H.
    apply Qlt_bool_false. lra.
  - apply andb_true_iff in H as [_ H]. now apply IH.
Qed.

Lemma diff_increasing (l : list Q) :
  strictly_increasing l = true ->
  Forall (fun d => (d <? f0)%py = false) (diff (ffill (map Fin l))).
Proof.
  intro H. unfold ffill. rewrite ffill_from_finite.
  destruct l as [|x l]; simpl; constructor.
  - reflexivity.
  - now apply diff_from_increasing.
Qed.

Lemma nth_error_repeat_lt {A : Type} (a : A) (n i : nat) :
  (i < n)%nat -> nth_error (repeat a n) i = Some a.
Proof.
  revert i; induction n as [|n IH]; intros [|i] H; simpl; try lia; auto.
  apply IH. lia.
Qed.

Lemma Forall_repeat {A : Type} (P : A -> Prop) (a : A) (n : nat) :
  P a -> Forall P (repeat a n).
Proof. intro H. induction n; simpl; constructor; auto. Qed.

(** ** Claims about the estimator *)

(** C3, as stated, fails: for a single-element series the estimator
    returns 100 at the sole position, not 50.  The missing first delta
    counts as no gain and no loss, the average loss is zero and the
    zero-loss rule applies before the neutral fallback is reached. *)
Lemma single_element_is_not_neutral :
  calculate_rsi [Fin 100] default_window = Ok [f100]
  /\ calculate_rsi [Fin 100] default_window <> Ok [f50].
Proof.
  split; [reflexivity|]. intro H. vm_compute in H. discriminate H.
Qed.

(** C3, amended: for a constant non-empty series, the series of a single
    element included, the estimator returns 100 at every position,
    whatever the value (a missing one too) and whatever the window. *)
Theorem constant_series_rsi :
  forall (x : pyfloat) (n window : nat),
    (1 <= window)%nat ->
    calculate_rsi [x] window = Ok [f100]
    /\ calculate_rsi (repeat x (S n)) window = Ok (repeat f100 (S n)).
Proof.
  assert (K : forall x n window, (1 <= window)%nat ->
            calculate_rsi (repeat x (S n)) window = Ok (repeat f100 (S n))).
  { intros x n window Hw.
    rewrite rsi_without_losses; [now rewrite repeat_length|assumption|].
    rewrite ffill_repeat. unfold diff. apply diff_from_repeat. now right. }
  intros x n window Hw. split; [exact (K x 0%nat window Hw)|now apply K].
Qed.

Lemma constant_series_rsi_witness :
  (1 <= default_window)%nat
  /\ calculate_rsi [Fin 100] default_window = Ok [f100]
  /\ calculate_rsi (repeat (Fin 100) 3) default_window = Ok (repeat f100 3).
Proof.
  split; [unfold default_window; lia|].
  apply (constant_series_rsi (Fin 100) 2 default_window).
  unfold default_window; lia.
Defined.

(** C6: for a strictly increasing series of positive prices at least as
    long as the window (a window of at least one, as pandas requires), the
    estimator returns a series of the same length, every value lies
    between 0 and 100, and the value is 100 at every position from the
    first full window on. *)
Theorem rising_series_rsi :
  forall (prices : list Q) (window : nat),
    (1 <= window)%nat ->
    strictly_increasing prices = true ->
    all_positive prices = true ->
    (window <= length prices)%nat ->
    exists rsi,
      calculate_rsi (map Fin prices) window = Ok rsi
      /\ length rsi = length prices
      /\ Forall in_0_100 rsi
      /\ forall i, (window - 1 <= i < length prices)%nat ->
                   nth_error rsi i = Some f100.
Proof.
  intros prices window Hw Hinc _ _.
  exists (repeat f100 (length prices)).
  assert (E : calculate_rsi (map Fin prices) window
              = Ok (repeat f100 (length prices))).
  { rewrite rsi_without_losses; [now rewrite length_map|assumption|].
    now apply diff_increasing. }
  split; [exact E|]. split; [apply repeat_length|]. split.
  - apply (calculate_rsi_range _ _ _ E).
  - intros i Hi. apply nth_error_repeat_lt. lia.
Qed.

Lemma rising_series_rsi_witness :
  let prices := [1; 2; 3; 5; 8; 9; 10; 12; 13; 14; 15; 17; 19; 20; 21] in
  (1 <= default_window)%nat
  /\ strictly_increasing prices = true
  /\ all_positive prices = true
  /\ (default_window <= length prices)%nat
  /\ exists rsi,
       calculate_rsi (map Fin prices) default_window = Ok rsi
       /\ length rsi = length prices
       /\ Forall in_0_100 rsi
       /\ forall i, (default_window - 1 <= i < length prices)%nat ->
                    nth_error rsi i = Some f100.
Proof.
  intro prices.
  assert (W : (1 <= default_window)%nat) by (unfold default_window; lia).
  assert (I : strictly_increasing prices = true) by reflexivity.
  assert (P : all_positive prices = true) by reflexivity.
  assert (L : (default_window <= length prices)%nat)
    by (unfold default_window; simpl; lia).
  split; [exact W|]. split; [exact I|]. split; [exact P|]. split; [exact L|].
  exact (rising_series_rsi prices default_window W I P L).
Defined.

(** The operations of the binary64 estimator keep the length. *)
Lemma length_double_deltas (data : list PrimFloat.float) :
  length (Double.diff (Double.ffill data)) = length data.
Proof.
  unfold Double.diff, Double.ffill.
  assert (D : forall l prev, length (Double.diff_from prev l) = length l)
    by (induction l as [|x l IH]; intro prev; simpl; auto).
  assert (F : forall l last, length (Double.ffill_from last l) = length l)
    by (induction l as [|x l IH]; intro last; simpl; auto).
  now rewrite D, F.
Qed.

Lemma plain_rolling_mean_keeps_length :
  Double.keeps_length Double.plain_rolling_mean.
Proof.
  intros window min_periods xs means. unfold Double.plain_rolling_mean.
  destruct (window <? min_periods)%nat; [discriminate|].
  intro E. injection E as <-. now rewrite length_map, length_seq.
Qed.

(** The substituted epsilon and a genuine average loss of 0.0001 take the
    same branch in binary64. *)
Lemma double_rsi_at_epsilon (u a : PrimFloat.float) :
  PrimFloat.eqb a Double.f0_0001 = true -> Double.rsi_at u a = Double.f100.
Proof.
  intro H. unfold Double.rsi_at. fold Double.f0_0001.
  match goal with
  | |- context [if PrimFloat.eqb a ?z then Double.f0_0001 else a] =>
      destruct (PrimFloat.eqb a z)
  end.
  - reflexivity.
  - rewrite H. reflexivity.
Qed.

(** C10: in binary64, whatever way the rolling mean sums its windows,
    wherever the trailing average loss compares equal to 0.0001 the
    estimator reports 100, whatever the gains and losses of the window:
    the comparison that recognises the substituted epsilon cannot tell it
    from a genuine average loss of that size. *)
Theorem epsilon_collision :
  forall (rolling_mean : nat -> nat -> list PrimFloat.float
                         -> result (list PrimFloat.float))
         (data losses : list PrimFloat.float) (window i : nat)
         (a : PrimFloat.float),
    Double.keeps_length rolling_mean ->
    (exists gains, Double.avg_gain rolling_mean data window = Ok gains) ->
    Double.avg_loss rolling_mean data window = Ok losses ->
    nth_error losses i = Some a ->
    PrimFloat.eqb a Double.f0_0001 = true ->
    exists rsi,
      Double.calculate_rsi rolling_mean data window = Ok rsi
      /\ nth_error rsi i = Some Double.f100.
Proof.
  intros rolling_mean data losses window i a K [gains Hg] Hl Hi Ha.
  unfold Double.avg_gain in Hg. unfold Double.avg_loss in Hl.
  unfold Double.calculate_rsi. rewrite Hg, Hl. cbn [bind].
  eexists. split; [reflexivity|].
  assert (L : length gains = length losses).
  { rewrite (K _ _ _ _ Hg), (K _ _ _ _ Hl).
    unfold Double.up_values, Double.down_values. now rewrite !length_map. }
  destruct (nth_error gains i) as [u|] eqn:Hu.
  - unfold Double.avoid_zero.
    rewrite nth_error_map, nth_error_map2, !nth_error_map, nth_error_map2,
      nth_error_map, Hi, Hu.
    cbn [option_map]. f_equal.
    exact (double_rsi_at_epsilon u a Ha).
  - apply nth_error_None in Hu.
    assert (i < length losses)%nat by (apply nth_error_Some; congruence).
    lia.
Qed.

(** The closes 0.0004, 0.0008, 0.0004, 0.0004 rise once and fall once.
    Their differences and the sums of their gains and of their losses are
    exact, so that the plain mean is the mean of any way of summing.  At
    the last position the average gain and the average loss both are the
    double 0.0001, a ratio that stands for an RSI of 50, and the reported
    RSI is 100. *)
Lemma epsilon_collision_witness :
  let data := Double.rise_and_fall in
  let deltas := Double.diff (Double.ffill data) in
  Double.keeps_length Double.plain_rolling_mean
  /\ (exists gain loss,
        nth_error (Double.up_values deltas) 1 = Some gain
        /\ PrimFloat.ltb Double.f0 gain = true
        /\ nth_error (Double.down_values deltas) 2 = Some loss
        /\ PrimFloat.ltb Double.f0 loss = true)
  /\ (exists gains losses u a,
        Double.avg_gain Double.plain_rolling_mean data default_window
        = Ok gains
        /\ Double.avg_loss Double.plain_rolling_mean data default_window
           = Ok losses
        /\ nth_error gains 3 = Some u
        /\ PrimFloat.eqb u Double.f0_0001 = true
        /\ nth_error losses 3 = Some a
        /\ PrimFloat.eqb a Double.f0_0001 = true)
  /\ (exists rsi,
        Double.calculate_rsi Double.plain_rolling_mean data default_window
        = Ok rsi
        /\ nth_error rsi 3 = Some Double.f100)
  /\ Double.calculate_rsi Double.plain_rolling_mean data default_window
     = Ok [Double.f100; Double.f100; Double.f50; Double.f100].
Proof.
  intros data deltas.
  split; [exact plain_rolling_mean_keeps_length|]. split; [|split; [|split]].
  - do 2 eexists. repeat split; vm_compute; reflexivity.
  - do 4 eexists. repeat split; vm_compute; reflexivity.
  - eapply (epsilon_collision Double.plain_rolling_mean data _
              default_window 3 _ plain_rolling_mean_keeps_length).
    + eexists. vm_compute. reflexivity.
    + vm_compute. reflexivity.
    + vm_compute. reflexivity.
    + vm_compute. reflexivity.
  - vm_compute. reflexivity.
Defined.

(** The doubles 0.3 and 0.2999 differ by a little less than the double
    0.0001: under a window of 1 the average loss at the second position
    is that difference, no collision takes place and the reading is 0. *)
Example no_collision_in_decimal :
  Double.calculate_rsi Double.plain_rolling_mean Double.near_miss 1
  = Ok [Double.f100; Double.f0]
  /\ exists a,
       Double.avg_loss Double.plain_rolling_mean Double.near_miss 1
       = Ok [Double.f0; a]
       /\ PrimFloat.ltb a Double.f0_0001 = true.
Proof. split; [|eexists; split]; vm_compute; reflexivity. Qed.

(** ** Claims about the classifier and the aggregator *)

(** C4: for a finite value the label is Buy exactly below 30 and Sell
    exactly above 70, Neutral in between, so that 30 and 70 themselves are
    Neutral; a NaN is Neutral.  The four sample values of the
    specification are included. *)
Theorem classify_thresholds :
  forall q : Q,
    (fst (get_rsi_signal (Fin q)) = "Buy" <-> q < 30)
    /\ (fst (get_rsi_signal (Fin q)) = "Sell" <-> 70 < q)
    /\ (fst (get_rsi_signal (Fin q)) = "Neutral" <-> 30 <= q /\ q <= 70)
    /\ get_rsi_signal f30 = ("Neutral", "neutral")
    /\ get_rsi_signal f70 = ("Neutral", "neutral")
    /\ get_rsi_signal NaN = ("Neutral", "neutral")
    /\ get_rsi_signal (Fin (2999 # 100)) = ("Buy", "buy")
    /\ get_rsi_signal (Fin (7001 # 100)) = ("Sell", "sell").
Proof.
  intro q. unfold get_rsi_signal at 1 2 3. cbn [isnan flt fgt f30 f70].
  destruct (Qlt_bool q 30) eqn:B; [|destruct (Qlt_bool 70 q) eqn:S];
    cbn [fst];
    reflect_Q; repeat split; intros; try discriminate; try reflexivity; lra.
Qed.

Lemma rsi_score_cases (q : Q) :
  (rsi_score (Fin q) = (-1)%Z /\ 70 < q)
  \/ (rsi_score (Fin q) = 1%Z /\ q < 30)
  \/ (rsi_score (Fin q) = 0%Z /\ 30 <= q /\ q <= 70).
Proof.
  unfold rsi_score. cbn [flt fgt f30 f70].
  destruct (Qlt_bool 70 q) eqn:S; [|destruct (Qlt_bool q 30) eqn:B];
    reflect_Q; auto.
Qed.

Lemma rsi_score_spec (q : Q) : score_spec q (rsi_score (Fin q)).
Proof.
  unfold score_spec.
  destruct (rsi_score_cases q) as [[-> H] | [[-> H] | [-> [H1 H2]]]];
    repeat split; intros; try discriminate; try reflexivity; lra.
Qed.

(** The aggregator depends on its readings through their scores only:
    each reading can be replaced by the sample reading of its score. *)
Lemma get_overall_signal_scores (d w m : pyfloat) :
  get_overall_signal d w m =
  get_overall_signal
    (reading_of_score (rsi_score (nan_to_50 d)))
    (reading_of_score (rsi_score (nan_to_50 w)))
    (reading_of_score (rsi_score (nan_to_50 m))).
Proof.
  assert (K : forall x, rsi_score (nan_to_50 x) = (-1)%Z
                        \/ rsi_score (nan_to_50 x) = 1%Z
                        \/ rsi_score (nan_to_50 x) = 0%Z).
  { intro x. unfold rsi_score.
    destruct (nan_to_50 x >? f70)%py; [|destruct (nan_to_50 x <? f30)%py];
      auto. }
  assert (S : forall x,
             rsi_score (nan_to_50 (reading_of_score
                                     (rsi_score (nan_to_50 x))))
             = rsi_score (nan_to_50 x)).
  { intro x. destruct (K x) as [-> | [-> | ->]]; reflexivity. }
  unfold get_overall_signal. cbv zeta. now rewrite !S.
Qed.

Ltac decide_label :=
  repeat split; intros;
  repeat match goal with
         | H : _ /\ _ |- _ => destruct H
         end;
  try discriminate; try reflexivity;
  try (unfold Qlt, Qle, Qeq in *; simpl in *; lia).

(** C5: the three scores are -1 above 70, +1 below 30 and 0 otherwise,
    the total is 0.5, 0.3 and 0.2 times the daily, weekly and monthly
    score, and the label is Strong Buy above 0.3, Buy from above 0 to 0.3,
    Strong Sell below -0.3, Sell from -0.3 to below 0 and Neutral at 0.
    The readings 25, 75, 50 give the total 0.2 and Buy; 20, 20, 20 give
    the total 1 and Strong Buy. *)
Theorem aggregate_labels :
  forall d w m : Q,
    let ds := rsi_score (Fin d) in
    let ws := rsi_score (Fin w) in
    let ms := rsi_score (Fin m) in
    let total :=
      (5 # 10) * inject_Z ds + (3 # 10) * inject_Z ws
      + (2 # 10) * inject_Z ms in
    score_spec d ds /\ score_spec w ws /\ score_spec m ms
    /\ (exists t, total_score (Fin d) (Fin w) (Fin m) = Fin t /\ t == total)
    /\ label_spec total
         (fst (fst (get_overall_signal (Fin d) (Fin w) (Fin m))))
    /\ (exists t, total_score (Fin 25) (Fin 75) (Fin 50) = Fin t
                  /\ t == 2 # 10)
    /\ fst (fst (get_overall_signal (Fin 25) (Fin 75) (Fin 50))) = "Buy"
    /\ (exists t, total_score (Fin 20) (Fin 20) (Fin 20) = Fin t /\ t == 1)
    /\ fst (fst (get_overall_signal (Fin 20) (Fin 20) (Fin 20)))
       = "Strong Buy".
Proof.
  intros d w m ds ws ms total.
  split; [apply rsi_score_spec|]. split; [apply rsi_score_spec|].
  split; [apply rsi_score_spec|]. split.
  { eexists. split; [reflexivity|]. subst total ds ws ms.
    cbn [nan_to_50 isnan]. ring. }
  split.
  { rewrite get_overall_signal_scores. subst total ds ws ms.
    cbn [nan_to_50 isnan]. unfold label_spec.
    destruct (rsi_score_cases d) as [[-> _] | [[-> _] | [-> _]]];
      destruct (rsi_score_cases w) as [[-> _] | [[-> _] | [-> _]]];
      destruct (rsi_score_cases m) as [[-> _] | [[-> _] | [-> _]]];
      vm_compute get_overall_signal; cbn [fst]; decide_label. }
  split; [eexists; split; [reflexivity|reflexivity]|].
  split; [reflexivity|].
  split; [eexists; split; [reflexivity|reflexivity]|].
  reflexivity.
Qed.

(** C9: the reason is the base sentence of the label followed by one
    clause per timeframe whose score is not zero, oversold for +1 and
    overbought for -1, in the order daily, weekly, monthly; when the three
    scores are zero it is the base sentence alone. *)
Theorem rationale_text :
  forall d w m : pyfloat,
    let label := fst (fst (get_overall_signal d w m)) in
    let reason := snd (get_overall_signal d w m) in
    let ds := rsi_score (nan_to_50 d) in
    let ws := rsi_score (nan_to_50 w) in
    let ms := rsi_score (nan_to_50 m) in
    reason = rationale_spec label ds ws ms
    /\ (ds = 0%Z /\ ws = 0%Z /\ ms = 0%Z -> reason = base_sentence label).
Proof.
  intros d w m label reason ds ws ms.
  assert (K : forall x, rsi_score (nan_to_50 x) = (-1)%Z
                        \/ rsi_score (nan_to_50 x) = 1%Z
                        \/ rsi_score (nan_to_50 x) = 0%Z).
  { intro x. unfold rsi_score.
    destruct (nan_to_50 x >? f70)%py; [|destruct (nan_to_50 x <? f30)%py];
      auto. }
  subst label reason. rewrite get_overall_signal_scores. subst ds ws ms.
  destruct (K d) as [-> | [-> | ->]];
    destruct (K w) as [-> | [-> | ->]];
    destruct (K m) as [-> | [-> | ->]];
    (split; [vm_compute; reflexivity|]);
    intros (Hd & Hw & Hm); try discriminate.
  vm_compute; reflexivity.
Qed.

Example rationale_two_clauses :
  snd (get_overall_signal (Fin 25) (Fin 75) (Fin 50))
  = "RSI suggests bullish momentum building. Daily RSI indicates oversold conditions, Weekly RSI indicates overbought conditions.".
Proof. reflexivity. Qed.

(** Rounding changes no label: for each of the 27 triples of scores the
    chain of comparisons applied to the binary64 total gives the label
    that the aggregator of the model gives; the binary64 totals of the
    two sample triples are the doubles nearest to 0.2 and 1. *)
Theorem binary64_labels :
  forall ds ws ms : Z,
    In ds [-1; 0; 1]%Z -> In ws [-1; 0; 1]%Z -> In ms [-1; 0; 1]%Z ->
    Binary64.label (Binary64.weighted_score ds ws ms)
    = fst (fst (get_overall_signal (reading_of_score ds)
                                   (reading_of_score ws)
                                   (reading_of_score ms))).
Proof.
  intros ds ws ms Hd Hw Hm. simpl in Hd, Hw, Hm.
  destruct Hd as [<- | [<- | [<- | []]]];
    destruct Hw as [<- | [<- | [<- | []]]];
    destruct Hm as [<- | [<- | [<- | []]]];
    vm_compute; reflexivity.
Qed.

Example binary64_samples :
  Binary64.weighted_score 1 (-1) 0 = Binary64.f0_2
  /\ Binary64.weighted_score 1 1 1 = Binary64.f1_0.
Proof. split; vm_compute; reflexivity. Qed.

(** ** Claims about the refresh *)

Lemma fetch_all_fails (w : env) :
  fetch_failed w -> exists e, fetch_all w = Raise e.
Proof.
  unfold fetch_failed, fetch_all, fetch, unusable.
  intros [H | [H | H]];
    destruct (download w I1d) as [[|b1 d1]|e1]; simpl;
    try (eexists; reflexivity); try discriminate;
    destruct (download w I1wk) as [[|b2 d2]|e2]; simpl;
    try (eexists; reflexivity); try discriminate;
    destruct (download w I1mo) as [[|b3 d3]|e3]; simpl;
    try (eexists; reflexivity); try discriminate; contradiction.
Qed.

(** C1: when a refresh finds a dict that a refresh has stamped before
    (its last_updated is not the start-up text) and any of the three
    downloads fails or comes back empty, the dict is left as it was,
    nothing is sent and the status is True. *)
Theorem fallback_keeps_snapshot :
  forall (w : env) (latest_data : Snap.t),
    eq_str (Snap.last_updated latest_data) not_updated_yet = false ->
    fetch_failed w ->
    update_data w latest_data
    = {| data_after := latest_data; sent := []; status := true |}.
Proof.
  intros w latest_data Hready Hfail.
  destruct (fetch_all_fails w Hfail) as [e E].
  unfold update_data. now rewrite E, Hready.
Qed.

Lemma fallback_keeps_snapshot_witness :
  eq_str (Snap.last_updated refreshed_once) not_updated_yet = false
  /\ fetch_failed weekly_empty
  /\ update_data weekly_empty refreshed_once
     = {| data_after := refreshed_once; sent := []; status := true |}.
Proof.
  assert (F : fetch_failed weekly_empty) by (right; left; reflexivity).
  split; [reflexivity|]. split; [exact F|].
  apply (fallback_keeps_snapshot weekly_empty refreshed_once);
    [reflexivity|exact F].
Defined.

(** C2: when a refresh finds the start-up text in last_updated and any of
    the three downloads fails or comes back empty, the dict is left as it
    was, so the start-up dict stays the start-up dict, and the status is
    False. *)
Theorem cold_start_failure :
  forall (w : env) (latest_data : Snap.t),
    Snap.last_updated latest_data = PyStr not_updated_yet ->
    fetch_failed w ->
    update_data w latest_data
    = {| data_after := latest_data; sent := []; status := false |}
    /\ (latest_data = initial_latest_data ->
        data_after (update_data w latest_data) = initial_latest_data).
Proof.
  intros w latest_data Hcold Hfail.
  destruct (fetch_all_fails w Hfail) as [e E].
  assert (U : update_data w latest_data
              = {| data_after := latest_data; sent := []; status := false |}).
  { unfold update_data. now rewrite E, Hcold. }
  split; [exact U|]. intros ->. now rewrite U.
Qed.

Lemma cold_start_failure_witness :
  Snap.last_updated initial_latest_data = PyStr not_updated_yet
  /\ fetch_failed weekly_empty
  /\ update_data weekly_empty initial_latest_data
     = {| data_after := initial_latest_data; sent := []; status := false |}.
Proof.
  assert (F : fetch_failed weekly_empty) by (right; left; reflexivity).
  split; [reflexivity|]. split; [exact F|].
  apply (cold_start_failure weekly_empty initial_latest_data);
    [reflexivity|exact F].
Defined.

(** With the default window the estimator returns, so the refresh meets
    no exception once the download block is passed. *)
Lemma last_rsi_ok (df : frame) : exists v, last_rsi df = Ok v.
Proof.
  unfold last_rsi.
  rewrite calculate_rsi_means by (unfold default_window; lia).
  eexists. reflexivity.
Qed.

Lemma generate_daily_summary_ok (w : env) (daily weekly monthly : frame) :
  exists message, generate_daily_summary w daily weekly monthly = Ok message.
Proof.
  unfold generate_daily_summary.
  destruct (last_rsi_ok daily) as [dv ->].
  destruct (last_rsi_ok weekly) as [wv ->].
  destruct (last_rsi_ok monthly) as [mv ->].
  cbn [bind].
  destruct (get_rsi_signal dv), (get_rsi_signal wv), (get_rsi_signal mv).
  destruct (get_overall_signal dv wv mv) as [[? ?] ?].
  eexists. reflexivity.
Qed.

(** A refresh whose three downloads are usable stores the refreshed dict
    and returns True. *)
Lemma refresh_succeeds (w : env) (latest_data : Snap.t)
  (daily weekly monthly : frame) :
  fetch_all w = Ok (daily, weekly, monthly) ->
  exists dv wv mv,
    last_rsi daily = Ok dv /\ last_rsi weekly = Ok wv
    /\ last_rsi monthly = Ok mv
    /\ data_after (update_data w latest_data) = refreshed w daily dv wv mv
    /\ status (update_data w latest_data) = true.
Proof.
  intro E. unfold update_data. rewrite E.
  destruct (last_rsi_ok daily) as [dv Hd].
  destruct (last_rsi_ok weekly) as [wv Hw].
  destruct (last_rsi_ok monthly) as [mv Hm].
  exists dv, wv, mv. rewrite Hd, Hw, Hm. cbn [bind].
  destruct (generate_daily_summary_ok w daily weekly monthly) as [msg ->].
  repeat split; destruct (just_closed (now_close w)); reflexivity.
Qed.

Lemma price_change_refreshed (w : env) (daily : frame) (dv wv mv : pyfloat) :
  Snap.price_change (refreshed w daily dv wv mv)
  = PyStr (Double.format_2f
             (price_change_of (safe_get_value (Close daily) (-1) f50)
                              (safe_get_value (Close daily) (-2) f50))).
Proof.
  unfold refreshed.
  destruct (get_rsi_signal dv), (get_rsi_signal wv), (get_rsi_signal mv).
  destruct (get_overall_signal dv wv mv) as [[? ?] ?]. reflexivity.
Qed.

Lemma iloc_last (l : list pyfloat) (p c : pyfloat) :
  iloc (l ++ [p; c]) (-1) = Some c /\ iloc (l ++ [p; c]) (-2) = Some p.
Proof.
  unfold iloc. rewrite length_app. cbn [length].
  change (-1 <? 0)%Z with true. change (-2 <? 0)%Z with true. cbv iota.
  split.
  - destruct (Z.ltb_spec (Z.of_nat (length l + 2) + -1) 0); [lia|].
    destruct (Z.leb_spec (Z.of_nat (length l + 2))
                         (Z.of_nat (length l + 2) + -1)); [lia|].
    cbn [orb].
    replace (Z.to_nat (Z.of_nat (length l + 2) + -1))
      with (length l + 1)%nat by lia.
    rewrite nth_error_app2 by lia.
    replace (length l + 1 - length l)%nat with 1%nat by lia. reflexivity.
  - destruct (Z.ltb_spec (Z.of_nat (length l + 2) + -2) 0); [lia|].
    destruct (Z.leb_spec (Z.of_nat (length l + 2))
                         (Z.of_nat (length l + 2) + -2)); [lia|].
    cbn [orb].
    replace (Z.to_nat (Z.of_nat (length l + 2) + -2))
      with (length l + 0)%nat by lia.
    rewrite nth_error_app2 by lia.
    replace (length l + 0 - length l)%nat with 0%nat by lia. reflexivity.
Qed.

(** The conversion and the format at work: a double is converted to
    itself, other rationals to the nearest double, and the text of a
    double is that of its exact value. *)
Example doubles :
  Double.of_Q (1 # 10000) = Double.f0_0001
  /\ Double.of_pyfloat f0_0001 = Double.f0_0001
  /\ Double.of_pyfloat f50 = Double.f50
  /\ Double.format_2f (Double.of_Q (1 # 8)) = "0.12"
  /\ Double.format_2f (Double.of_Q (1005 # 1000)) = "1.00"
  /\ Double.format_2f (PrimFloat.opp Double.f0) = "-0.00"
  /\ Double.format_2f (PrimFloat.div Double.f100 Double.f0) = "inf"
  /\ Double.format_2f (PrimFloat.div Double.f0 Double.f0) = "nan".
Proof. repeat split; vm_compute; reflexivity. Qed.




(** ** The two notifications *)

Lemma prefix_append (p s : string) : String.prefix p (p ++ s) = true.
Proof.
  induction p as [|c p IH]; simpl.
  - now destruct s.
  - destruct (ascii_dec c c) as [_|N]; [exact IH|now elim N].
Qed.

Lemma update_message_is_live (latest_data : Snap.t) :
  is_live_update (update_message latest_data) = true.
Proof. apply prefix_append. Qed.

Lemma generate_daily_summary_is_summary (w : env)
  (daily weekly monthly : frame) (message : string) :
  generate_daily_summary w daily weekly monthly = Ok message ->
  is_daily_summary message = true.
Proof.
  intro G.
  assert (H : exists rest, generate_daily_summary w daily weekly monthly
                           = Ok (summary_headline ++ rest)).
  { unfold generate_daily_summary.
    destruct (last_rsi_ok daily) as [dv ->].
    destruct (last_rsi_ok weekly) as [wv ->].
    destruct (last_rsi_ok monthly) as [mv ->].
    cbn [bind].
    destruct (get_rsi_signal dv), (get_rsi_signal wv), (get_rsi_signal mv).
    destruct (get_overall_signal dv wv mv) as [[? ?] ?].
    eexists. reflexivity. }
  destruct H as [rest H].
  assert (M : message = summary_headline ++ rest) by congruence.
  rewrite M. apply prefix_append.
Qed.

(** What a refresh with usable downloads sends: the live update when the
    market is open at the reading of [is_market_open], then the summary
    when the later reading falls in the summary window. *)
Lemma sent_of_refresh (w : env) (latest_data : Snap.t)
  (daily weekly monthly : frame) :
  fetch_all w = Ok (daily, weekly, monthly) ->
  exists live summary,
    is_live_update live = true /\ is_daily_summary summary = true
    /\ sent (update_data w latest_data)
       = ((if is_market_open (now_market w) then [live] else [])
          ++ (if just_closed (now_close w) then [summary] else []))%list.
Proof.
  intro E.
  destruct (refresh_succeeds w latest_data daily weekly monthly E)
    as (dv & wv & mv & Hd & Hw & Hm & _ & _).
  destruct (generate_daily_summary_ok w daily weekly monthly) as [msg G].
  exists (update_message (refreshed w daily dv wv mv)), msg.
  split; [apply update_message_is_live|].
  split; [exact (generate_daily_summary_is_summary _ _ _ _ _ G)|].
  unfold update_data. rewrite E, Hd, Hw, Hm. cbn [bind]. rewrite G.
  destruct (just_closed (now_close w)); cbn [sent];
    [reflexivity|now rewrite app_nil_r].
Qed.

(** One reading of the clock satisfies both conditions only in the second
    that starts at 15:30:00, the inclusive end of the market hours. *)
Lemma both_conditions_at_1530 (now : datetime) :
  is_market_open now = true -> just_closed now = true ->
  hour now = 15%Z /\ minute now = 30%Z /\ (second now <= 0)%Z.
Proof.
  unfold is_market_open, just_closed. intros Ho Hc.
  destruct (5 <=? Date.weekday now)%Z; [discriminate|].
  apply andb_true_iff in Ho as [_ Ho].
  apply andb_true_iff in Hc as [Hc M2]. apply andb_true_iff in Hc as [H15 M1].
  apply Z.eqb_eq in H15. apply Z.leb_le in M1. apply Z.ltb_lt in M2.
  unfold Date.leb, Date.fields, Date.replace_hms in Ho. cbn -[Z.ltb] in Ho.
  rewrite !Z.ltb_irrefl in Ho.
  destruct (Z.ltb_spec (hour now) 15); [lia|].
  destruct (Z.ltb_spec 15 (hour now)); [lia|].
  destruct (Z.ltb_spec (minute now) 30); [lia|].
  destruct (Z.ltb_spec 30 (minute now)); [discriminate|].
  destruct (Z.ltb_spec (second now) 0); [lia|].
  destruct (Z.ltb_spec 0 (second now)); [discriminate|].
  lia.
Qed.

(** C8 does not hold of the code.  On Monday 6 January 2025 at 15:30:00
    the market counts as open (the closing time is included) and the
    summary window has begun (it starts at minute 30), so one refresh
    sends the live update and then the summary. *)
Theorem both_messages_at_the_close :
  is_market_open (now_market at_the_close) = true
  /\ just_closed (now_close at_the_close) = true
  /\ status (update_data at_the_close initial_latest_data) = true
  /\ exists live summary,
       sent (update_data at_the_close initial_latest_data) = [live; summary]
       /\ is_live_update live = true /\ is_daily_summary live = false
       /\ is_daily_summary summary = true /\ is_live_update summary = false.
Proof.
  split; [reflexivity|]. split; [reflexivity|]. split; [reflexivity|].
  do 2 eexists. split; [vm_compute; reflexivity|].
  repeat split; vm_compute; reflexivity.
Qed.

(** * Further properties *)

Local Open Scope list_scope.

(** ** The estimator on every series *)

(** X1: the estimator raises exactly for a window of zero; otherwise it
    returns, for every series (empty, with gaps, of any length), a series
    of the same length whose values all lie between 0 and 100, so that no
    position is left undefined. *)
Theorem rsi_total_and_bounded :
  forall (data : list pyfloat) (window : nat),
    match calculate_rsi data window with
    | Ok rsi =>
        (1 <= window)%nat /\ length rsi = length data /\ Forall in_0_100 rsi
    | Raise _ => window = 0%nat
    end.
Proof.
  intros data [|w].
  - reflexivity.
  - destruct (calculate_rsi data (S w)) as [rsi|e] eqn:E.
    + split; [lia|]. split.
      * exact (calculate_rsi_length _ _ _ E).
      * exact (calculate_rsi_range _ _ _ E).
    + rewrite calculate_rsi_means in E by lia. discriminate E.
Qed.

(** ** Forward fill *)

Lemma ffill_from_idempotent (last : pyfloat) (l : list pyfloat) :
  ffill_from last (ffill_from last l) = ffill_from last l.
Proof.
  revert last; induction l as [|x l IH]; intro last; simpl; [reflexivity|].
  destruct x as [q|]; simpl.
  - f_equal. apply IH.
  - destruct last as [q|]; simpl; f_equal; apply IH.
Qed.

(** X3: filling the gaps of a series beforehand does not change its RSI:
    the charts, which fill the frame first, and the refresh, which does
    not, compute the same series. *)
Theorem rsi_of_filled_series :
  forall (data : list pyfloat) (window : nat),
    calculate_rsi (ffill data) window = calculate_rsi data window.
Proof.
  intros data window. unfold calculate_rsi, ffill.
  now rewrite ffill_from_idempotent.
Qed.

(** ** No look-ahead *)

Lemma ffill_from_app (last : pyfloat) (l m : list pyfloat) :
  exists m', ffill_from last (l ++ m) = ffill_from last l ++ m'.
Proof.
  revert last; induction l as [|x l IH]; intro last; simpl.
  - eexists. reflexivity.
  - destruct (IH (if isnan x then last else x)) as [m' ->].
    eexists. reflexivity.
Qed.

Lemma diff_from_app (prev : pyfloat) (l m : list pyfloat) :
  exists m', diff_from prev (l ++ m) = diff_from prev l ++ m'.
Proof.
  revert prev; induction l as [|x l IH]; intro prev; simpl.
  - eexists. reflexivity.
  - destruct (IH x) as [m' ->]. eexists. reflexivity.
Qed.

Lemma window_at_app (window : nat) (xs ys : list pyfloat) (i : nat) :
  (i < length xs)%nat -> window_at window (xs ++ ys) i = window_at window xs i.
Proof.
  intro H. unfold window_at. rewrite firstn_app.
  replace (S i - length xs)%nat with 0%nat by lia.
  cbn [firstn]. now rewrite app_nil_r.
Qed.

Lemma means_app (window : nat) (xs ys : list pyfloat) :
  exists zs, means window (xs ++ ys) = means window xs ++ zs.
Proof.
  unfold means. rewrite length_app, seq_app, map_app.
  eexists. f_equal. apply map_ext_in. intros i Hi. apply in_seq in Hi.
  rewrite window_at_app by lia. reflexivity.
Qed.

Lemma map2_app {A B C : Type} (f : A -> B -> C) (l l' : list A)
  (m m' : list B) :
  length l = length m ->
  map2 f (l ++ l') (m ++ m') = map2 f l m ++ map2 f l' m'.
Proof.
  revert m; induction l as [|a l IH]; intros [|b m] H; simpl in *;
    try discriminate; [reflexivity|].
  f_equal. apply IH. lia.
Qed.

(** X2: the RSI of a position depends on the closes up to that position
    only: closes appended to a series leave the values computed so far as
    they are. *)
Theorem rsi_no_lookahead :
  forall (data more rsi : list pyfloat) (window : nat),
    calculate_rsi data window = Ok rsi ->
    exists later,
      calculate_rsi (data ++ more) window = Ok (rsi ++ later)
      /\ length later = length more.
Proof.
  intros data more rsi window E.
  destruct window as [|w]; [discriminate E|].
  rewrite calculate_rsi_means in E by lia. injection E as <-.
  rewrite calculate_rsi_means by lia.
  unfold ffill, diff.
  destruct (ffill_from_app NaN data more) as [m1 E1].
  assert (L1 : length m1 = length more).
  { apply (f_equal (@length pyfloat)) in E1.
    rewrite length_ffill_from, !length_app, length_ffill_from in E1. lia. }
  rewrite E1.
  destruct (diff_from_app NaN (ffill_from NaN data) m1) as [m2 E2].
  assert (L2 : length m2 = length more).
  { apply (f_equal (@length pyfloat)) in E2.
    rewrite length_diff_from, !length_app, length_diff_from in E2. lia. }
  rewrite E2. unfold up_values, down_values. rewrite !map_app.
  fold (up_values (diff_from NaN (ffill_from NaN data))).
  fold (down_values (diff_from NaN (ffill_from NaN data))).
  fold (up_values m2). fold (down_values m2).
  destruct (means_app (S w) (up_values (diff_from NaN (ffill_from NaN data)))
                      (up_values m2)) as [zu Eu].
  destruct (means_app (S w)
                      (down_values (diff_from NaN (ffill_from NaN data)))
                      (down_values m2)) as [zd Ed].
  assert (Lu : length zu = length more).
  { apply (f_equal (@length pyfloat)) in Eu.
    rewrite length_means, !length_app, length_means, !length_up_values in Eu.
    lia. }
  assert (Ld : length zd = length more).
  { apply (f_equal (@length pyfloat)) in Ed.
    rewrite length_means, !length_app, length_means, !length_down_values in Ed.
    lia. }
  rewrite Eu, Ed.
  rewrite map2_app
    by (rewrite !length_means, length_up_values, length_down_values;
        reflexivity).
  eexists. split; [reflexivity|].
  rewrite length_map2. lia.
Qed.

Lemma rsi_no_lookahead_witness :
  calculate_rsi [Fin 10; Fin 12; Fin 11] default_window
  = Ok [f100; f100; Fin (600 # 9)]
  /\ exists later,
       calculate_rsi ([Fin 10; Fin 12; Fin 11] ++ [Fin 5; Fin 20])
                     default_window
       = Ok ([f100; f100; Fin (600 # 9)] ++ later)
       /\ length later = 2%nat.
Proof.
  assert (E : calculate_rsi [Fin 10; Fin 12; Fin 11] default_window
              = Ok [f100; f100; Fin (600 # 9)]) by reflexivity.
  split; [exact E|].
  exact (rsi_no_lookahead [Fin 10; Fin 12; Fin 11] [Fin 5; Fin 20] _
                          default_window E).
Defined.

(** ** Windows longer than the series *)

Lemma means_long_window (w1 w2 : nat) (xs : list pyfloat) :
  (length xs <= w1)%nat -> (length xs <= w2)%nat ->
  means w1 xs = means w2 xs.
Proof.
  intros H1 H2. unfold means. apply map_ext_in. intros i Hi.
  apply in_seq in Hi. unfold window_at.
  replace (S i - w1)%nat with 0%nat by lia.
  replace (S i - w2)%nat with 0%nat by lia. reflexivity.
Qed.

(** X4: a window that is not shorter than the series averages over all
    gains and losses so far, so every such window gives the same RSI:
    a series shorter than the default 14 is rated on all of its closes. *)
Theorem rsi_long_window :
  forall (data : list pyfloat) (w1 w2 : nat),
    (1 <= w1)%nat -> (1 <= w2)%nat ->
    (length data <= w1)%nat -> (length data <= w2)%nat ->
    calculate_rsi data w1 = calculate_rsi data w2.
Proof.
  intros data w1 w2 P1 P2 H1 H2.
  rewrite !calculate_rsi_means by assumption.
  rewrite (means_long_window w1 w2 (up_values _)),
          (means_long_window w1 w2 (down_values _));
    try reflexivity;
    rewrite ?length_up_values, ?length_down_values, length_deltas;
    assumption.
Qed.

Lemma rsi_long_window_witness :
  let data := [Fin 10; Fin 12; Fin 11; Fin 11] in
  (1 <= 4)%nat /\ (1 <= default_window)%nat
  /\ (length data <= 4)%nat /\ (length data <= default_window)%nat
  /\ calculate_rsi data 4 = calculate_rsi data default_window.
Proof.
  intro data.
  assert (P1 : (1 <= 4)%nat) by lia.
  assert (P2 : (1 <= default_window)%nat) by (unfold default_window; lia).
  assert (H1 : (length data <= 4)%nat) by (simpl; lia).
  assert (H2 : (length data <= default_window)%nat)
    by (unfold default_window; simpl; lia).
  repeat (split; [assumption|]).
  exact (rsi_long_window data 4 default_window P1 P2 H1 H2).
Defined.

(** ** Falling series *)











(** ** Reading a series safely *)

Lemma iloc_In (xs : list pyfloat) (index : Z) (v : pyfloat) :
  iloc xs index = Some v -> In v xs.
Proof.
  unfold iloc.
  destruct ((_ <? 0) || _)%Z; [discriminate|]. apply nth_error_In.
Qed.

Lemma iloc_out_of_range (xs : list pyfloat) (index : Z) :
  (index < - Z.of_nat (length xs) \/ Z.of_nat (length xs) <= index)%Z ->
  iloc xs index = None.
Proof.
  intro H. unfold iloc.
  destruct (Z.ltb_spec index 0);
    destruct (Z.ltb_spec (Z.of_nat (length xs) + index) 0);
    destruct (Z.leb_spec (Z.of_nat (length xs))
                         (Z.of_nat (length xs) + index));
    destruct (Z.ltb_spec index 0);
    destruct (Z.leb_spec (Z.of_nat (length xs)) index);
    try reflexivity; lia.
Qed.

Lemma safe_get_value_default_or_member (series : list pyfloat) (index : Z)
  (default : pyfloat) :
  safe_get_value series index default = default
  \/ In (safe_get_value series index default) series.
Proof.
  unfold safe_get_value.
  destruct (iloc series index) as [v|] eqn:E; [|now left].
  destruct (isnan v); [now left|right]. now apply iloc_In in E.
Qed.

(** X6: with a default that is a number, [safe_get_value] never returns
    NaN: it returns the default for a position outside the series (an
    empty series included) and for a missing value, and the value itself
    otherwise; position -1 is the last value. *)
Theorem safe_get_value_is_safe :
  forall (series : list pyfloat) (index : Z) (default : pyfloat),
    isnan default = false ->
    isnan (safe_get_value series index default) = false
    /\ (safe_get_value series index default = default
        \/ In (safe_get_value series index default) series)
    /\ ((index < - Z.of_nat (length series)
         \/ Z.of_nat (length series) <= index)%Z ->
        safe_get_value series index default = default)
    /\ (forall l x, series = l ++ [x] ->
                    safe_get_value series (-1) default
                    = if isnan x then default else x).
Proof.
  intros series index default Hd. repeat split; try unfold safe_get_value.
  - destruct (iloc series index) as [v|]; [|exact Hd].
    destruct (isnan v) eqn:E; [exact Hd|exact E].
  - apply safe_get_value_default_or_member.
  - intro H. now rewrite iloc_out_of_range.
  - intros l x ->.
    destruct l as [|y l'] using rev_ind.
    + reflexivity.
    + rewrite <- app_assoc. cbn [app].
      now rewrite (proj1 (iloc_last l' y x)).
Qed.

Lemma safe_get_value_is_safe_witness :
  isnan f50 = false
  /\ safe_get_value [] (-1) f50 = f50
  /\ safe_get_value [Fin 7; NaN] (-1) f50 = f50
  /\ safe_get_value [Fin 7; NaN] (-2) f50 = Fin 7
  /\ safe_get_value [Fin 7; NaN] (-3) f50 = f50
  /\ isnan (safe_get_value [Fin 7; NaN] (-1) f50) = false.
Proof.
  repeat (split; [reflexivity|]).
  exact (proj1 (safe_get_value_is_safe [Fin 7; NaN] (-1) f50 eq_refl)).
Defined.

(** ** What a refresh stores *)

Lemma last_rsi_in_range (df : frame) (v : pyfloat) :
  last_rsi df = Ok v -> in_0_100 v.
Proof.
  unfold last_rsi.
  destruct (calculate_rsi (Close df) default_window) as [rsi|e] eqn:E;
    [|discriminate].
  cbn [bind]. intro H. injection H as <-.
  pose proof (calculate_rsi_range _ _ _ E) as R.
  destruct (safe_get_value_default_or_member rsi (-1) f50) as [-> | I].
  - simpl. lra.
  - rewrite Forall_forall in R. auto.
Qed.

Lemma dec_starts_with_digit (z : Z) :
  exists c rest, dec z = String c rest /\ Ascii.eqb c "N" = false.
Proof.
  unfold dec. destruct (N.to_uint (Z.to_N z)); do 2 eexists;
    (split; [reflexivity|reflexivity]).
Qed.

Lemma pad_starts_with_digit (width : nat) (z : Z) :
  exists c rest, pad width z = String c rest /\ Ascii.eqb c "N" = false.
Proof.
  unfold pad. destruct (width - String.length (dec z))%nat as [|k].
  - apply dec_starts_with_digit.
  - do 2 eexists. split; reflexivity.
Qed.

Lemma stamped_is_ready (d : datetime) :
  eq_str (PyStr (Date.strftime_stamp d)) not_updated_yet = false.
Proof.
  unfold Date.strftime_stamp.
  destruct (pad_starts_with_digit 4 (year d)) as (c & rest & -> & H).
  unfold eq_str, not_updated_yet. cbn [String.append String.eqb].
  now rewrite H.
Qed.

Lemma get_rsi_signal_styles (v : pyfloat) :
  In (PyStr (fst (get_rsi_signal v)), PyStr (snd (get_rsi_signal v)))
     timeframe_styles.
Proof.
  unfold get_rsi_signal, timeframe_styles.
  destruct (isnan v); [|destruct (v <? f30)%py; [|destruct (v >? f70)%py]];
    simpl; auto.
Qed.

Lemma rsi_score_range (x : pyfloat) :
  In (rsi_score (nan_to_50 x)) [-1; 1; 0]%Z.
Proof.
  unfold rsi_score.
  destruct (nan_to_50 x >? f70)%py; [|destruct (nan_to_50 x <? f30)%py];
    simpl; auto.
Qed.

Lemma get_overall_signal_styles (d w m : pyfloat) :
  In (PyStr (fst (fst (get_overall_signal d w m))),
      PyStr (snd (fst (get_overall_signal d w m))))
     overall_styles.
Proof.
  rewrite get_overall_signal_scores.
  destruct (rsi_score_range d) as [<- | [<- | [<- | []]]];
    destruct (rsi_score_range w) as [<- | [<- | [<- | []]]];
    destruct (rsi_score_range m) as [<- | [<- | [<- | []]]];
    vm_compute; auto 6.
Qed.

Lemma refreshed_renderable (w : env) (daily : frame) (dv wv mv : pyfloat) :
  in_0_100 dv -> in_0_100 wv -> in_0_100 mv ->
  renderable (refreshed w daily dv wv mv).
Proof.
  intros Hd Hw Hm. unfold refreshed.
  pose proof (get_rsi_signal_styles dv) as Sd.
  pose proof (get_rsi_signal_styles wv) as Sw.
  pose proof (get_rsi_signal_styles mv) as Sm.
  pose proof (get_overall_signal_styles dv wv mv) as So.
  destruct (get_rsi_signal dv), (get_rsi_signal wv), (get_rsi_signal mv).
  destruct (get_overall_signal dv wv mv) as [[? ?] ?].
  unfold renderable, ready, reading_text. cbn [Snap.last_updated
    Snap.current_price Snap.price_change Snap.daily_rsi Snap.weekly_rsi
    Snap.monthly_rsi Snap.daily_signal Snap.weekly_signal Snap.monthly_signal
    Snap.daily_signal_class Snap.weekly_signal_class Snap.monthly_signal_class
    Snap.overall_signal Snap.overall_signal_class Snap.recommendation_reason
    is_text fst snd] in *.
  split; [apply stamped_is_ready|].
  repeat (split; [solve [exact I | eauto | assumption]|]). exact I.
Qed.

Lemma successful_refresh_renderable (w : env) (latest_data : Snap.t)
  (daily weekly monthly : frame) :
  fetch_all w = Ok (daily, weekly, monthly) ->
  renderable (data_after (update_data w latest_data)).
Proof.
  intro E.
  destruct (refresh_succeeds w latest_data daily weekly monthly E)
    as (dv & wv & mv & Hd & Hw & Hm & -> & _).
  apply refreshed_renderable; eapply last_rsi_in_range; eassumption.
Qed.

(** The outcome of a refresh with an unusable download. *)
Lemma failed_refresh (w : env) (latest_data : Snap.t) :
  fetch_failed w ->
  update_data w latest_data
  = {| data_after := latest_data; sent := [];
       status := negb (eq_str (Snap.last_updated latest_data)
                              not_updated_yet) |}.
Proof.
  intro F. destruct (fetch_all_fails w F) as [e E].
  unfold update_data. rewrite E.
  now destruct (eq_str (Snap.last_updated latest_data) not_updated_yet).
Qed.

(** X7: a refresh whose downloads are usable leaves a dict that the page
    can render in full: it is stamped (last_updated is a string other than
    the start-up text), its three RSI fields are texts of readings between
    0 and 100, each signal comes with its own style class (buy, sell or
    neutral, the three the stylesheet defines), and every field is a
    string, none a number any more. *)
Theorem refresh_stores_renderable :
  forall (w : env) (latest_data : Snap.t) (daily weekly monthly : frame),
    fetch_all w = Ok (daily, weekly, monthly) ->
    renderable (data_after (update_data w latest_data)).
Proof.
  intros w latest_data daily weekly monthly E.
  destruct (refresh_succeeds w latest_data daily weekly monthly E)
    as (dv & wv & mv & Hd & Hw & Hm & D & _).
  rewrite D. apply refreshed_renderable.
  - exact (last_rsi_in_range daily dv Hd).
  - exact (last_rsi_in_range weekly wv Hw).
  - exact (last_rsi_in_range monthly mv Hm).
Qed.

Lemma refresh_stores_renderable_witness :
  fetch_all at_the_close = Ok (sample_frame, sample_frame, sample_frame)
  /\ renderable (data_after (update_data at_the_close initial_latest_data))
  /\ ~ renderable initial_latest_data.
Proof.
  assert (E : fetch_all at_the_close
              = Ok (sample_frame, sample_frame, sample_frame))
    by reflexivity.
  split; [exact E|]. split.
  - exact (refresh_stores_renderable at_the_close initial_latest_data
             sample_frame sample_frame sample_frame E).
  - intros (R & _). discriminate R.
Defined.

(** ** The status of a refresh *)

Lemma fetch_all_cases (w : env) :
  (exists frames, fetch_all w = Ok frames) \/ fetch_failed w.
Proof.
  unfold fetch_failed, fetch_all, fetch, unusable.
  destruct (download w I1d) as [[|b1 d1]|e1]; cbn [bind empty]; auto.
  destruct (download w I1wk) as [[|b2 d2]|e2]; cbn [bind empty]; auto.
  destruct (download w I1mo) as [[|b3 d3]|e3]; cbn [bind empty]; auto.
  left. eexists. reflexivity.
Qed.

Lemma fetch_all_ok_not_failed (w : env) (frames : frame * frame * frame) :
  fetch_all w = Ok frames -> ~ fetch_failed w.
Proof.
  intros E F. destruct (fetch_all_fails w F) as [e E']. congruence.
Qed.

(** X8: the update endpoint answers "error" exactly when a download is
    unusable and no refresh has stamped the dict before; in every other
    case it answers "success", and whenever a download is unusable the
    dict stays as it was. *)
Theorem force_update_status :
  forall (w : env) (latest_data : Snap.t),
    (snd (force_update w latest_data) = "error"
     <-> fetch_failed w
         /\ eq_str (Snap.last_updated latest_data) not_updated_yet = true)
    /\ (snd (force_update w latest_data) = "success"
        \/ snd (force_update w latest_data) = "error")
    /\ (fetch_failed w ->
        data_after (fst (force_update w latest_data)) = latest_data).
Proof.
  intros w latest_data. unfold force_update. cbn [fst snd].
  destruct (fetch_all_cases w) as [[[[d wk] m] E] | F].
  - destruct (refresh_succeeds w latest_data d wk m E)
      as (dv & wv & mv & _ & _ & _ & _ & S).
    pose proof (fetch_all_ok_not_failed w _ E) as NF.
    rewrite S.
    split; [split; [discriminate|intros [F _]; contradiction]|].
    split; [now left|intro F; contradiction].
  - rewrite (failed_refresh w latest_data F). cbn [status data_after].
    destruct (eq_str (Snap.last_updated latest_data) not_updated_yet);
      cbn [negb].
    + split; [split; [now split|reflexivity]|].
      split; [now right|reflexivity].
    + split; [split; [discriminate|intros [_ H]; discriminate H]|].
      split; [now left|reflexivity].
Qed.

(** X9: once a refresh has stamped the dict, every later refresh of a run
    returns True and leaves a stamped dict, whatever the downloads do: the
    start-up text never comes back. *)
Theorem ready_is_kept :
  forall (ws : list env) (latest_data : Snap.t),
    ready latest_data ->
    Forall (fun o => status o = true /\ ready (data_after o))
           (refresh_all ws latest_data).
Proof.
  assert (K : forall w st, ready st ->
              status (update_data w st) = true
              /\ ready (data_after (update_data w st))).
  { intros w st R.
    destruct (fetch_all_cases w) as [[[[d wk] m] E] | F].
    - destruct (refresh_succeeds w st d wk m E)
        as (dv & wv & mv & _ & _ & _ & _ & S).
      split; [exact S|].
      exact (proj1 (successful_refresh_renderable w st d wk m E)).
    - rewrite (failed_refresh w st F). cbn [status data_after].
      unfold ready in R. rewrite R. split; [reflexivity|exact R]. }
  induction ws as [|w ws IH]; intros latest_data R; simpl; constructor.
  - now apply K.
  - apply IH. now apply K.
Qed.

Lemma ready_is_kept_witness :
  ready refreshed_once
  /\ Forall (fun o => status o = true /\ ready (data_after o))
            (refresh_all [weekly_empty; at_the_close; weekly_empty]
                         refreshed_once)
  /\ map status (refresh_all [weekly_empty; at_the_close; weekly_empty]
                             initial_latest_data)
     = [false; true; true].
Proof.
  assert (R : ready refreshed_once) by reflexivity.
  split; [exact R|]. split.
  - exact (ready_is_kept [weekly_empty; at_the_close; weekly_empty]
                         refreshed_once R).
  - vm_compute. reflexivity.
Defined.

(** ** The recommendation against the three signals *)

Lemma signal_score_cases (x : pyfloat) :
  (fst (get_rsi_signal x) = "Buy"%string /\ rsi_score (nan_to_50 x) = 1%Z)
  \/ (fst (get_rsi_signal x) = "Sell"%string
      /\ rsi_score (nan_to_50 x) = (-1)%Z)
  \/ (fst (get_rsi_signal x) = "Neutral"%string
      /\ rsi_score (nan_to_50 x) = 0%Z).
Proof.
  destruct x as [q|]; [|right; right; split; reflexivity].
  unfold get_rsi_signal, rsi_score. cbn [nan_to_50 isnan flt fgt f30 f70].
  destruct (Qlt_bool q 30) eqn:B; destruct (Qlt_bool 70 q) eqn:S;
    reflect_Q; cbn [fst]; auto; lra.
Qed.

(** X10: the recommendation never opposes the daily signal (a daily Buy
    gives Strong Buy, Buy or Neutral, a daily Sell the mirror image);
    three equal signals give the strong form of that signal, or Neutral;
    and Neutral comes out in three situations only: all three signals are
    Neutral, or the weekly and the monthly signal both oppose the daily
    one. *)
Theorem overall_follows_daily :
  forall d w m : pyfloat,
    let daily := fst (get_rsi_signal d) in
    let weekly := fst (get_rsi_signal w) in
    let monthly := fst (get_rsi_signal m) in
    let overall := fst (fst (get_overall_signal d w m)) in
    (daily = "Buy"%string ->
     overall = "Strong Buy"%string \/ overall = "Buy"%string
     \/ overall = "Neutral"%string)
    /\ (daily = "Sell"%string ->
        overall = "Strong Sell"%string \/ overall = "Sell"%string
        \/ overall = "Neutral"%string)
    /\ (daily = weekly /\ weekly = monthly ->
        overall = ("Strong " ++ daily)%string
        \/ (daily = "Neutral"%string /\ overall = "Neutral"%string))
    /\ (overall = "Neutral"%string <->
        (daily = "Neutral"%string /\ weekly = "Neutral"%string
         /\ monthly = "Neutral"%string)
        \/ (daily = "Buy"%string /\ weekly = "Sell"%string
            /\ monthly = "Sell"%string)
        \/ (daily = "Sell"%string /\ weekly = "Buy"%string
            /\ monthly = "Buy"%string)).
Proof.
  intros d w m daily weekly monthly overall.
  subst daily weekly monthly overall.
  rewrite get_overall_signal_scores.
  destruct (signal_score_cases d) as [[-> ->] | [[-> ->] | [-> ->]]];
    destruct (signal_score_cases w) as [[-> ->] | [[-> ->] | [-> ->]]];
    destruct (signal_score_cases m) as [[-> ->] | [[-> ->] | [-> ->]]];
    vm_compute get_overall_signal; cbn [fst String.append];
    repeat split; intros;
    repeat match goal with
           | H : _ /\ _ |- _ => destruct H
           | H : _ \/ _ |- _ => destruct H
           end;
    try discriminate; auto 8.
Qed.

(** ** The messages of a refresh *)

Lemma usable_daily_frame (w : env) (daily weekly monthly : frame) :
  fetch_all w = Ok (daily, weekly, monthly) ->
  exists bars b, daily = bars ++ [b].
Proof.
  unfold fetch_all, fetch. intro E.
  destruct (download w I1d) as [[|b1 d1]|e1]; cbn [bind empty] in E;
    try discriminate E.
  destruct (download w I1wk) as [[|b2 d2]|e2]; cbn [bind empty] in E;
    try discriminate E.
  destruct (download w I1mo) as [[|b3 d3]|e3]; cbn [bind empty] in E;
    try discriminate E.
  injection E as <- _ _.
  destruct (exists_last (l := b1 :: d1)) as (bars & b & ->);
    [discriminate|]. now exists bars, b.
Qed.

Lemma summary_of_refreshed (w : env) (daily : frame) (dv wv mv : pyfloat)
  (date_str : string) :
  summary_of (refreshed w daily dv wv mv) date_str
  = (let '(daily_signal, _) := get_rsi_signal dv in
     let '(weekly_signal, _) := get_rsi_signal wv in
     let '(monthly_signal, _) := get_rsi_signal mv in
     let '(overall_signal, _, recommendation_reason) :=
       get_overall_signal dv wv mv in
     let current_price := safe_get_value (Close daily) (-1) f50 in
     let prev_close := safe_get_value (Close daily) (-2) f50 in
     let price_change_pct := price_change_of current_price prev_close in
     summary_headline ++ date_str ++ "*" ++ nl
     ++ nl
     ++ "*Closing Price:* " ++ format_2f current_price
     ++ " (" ++ Double.format_2f price_change_pct ++ "%)" ++ nl
     ++ nl
     ++ "*RSI Analysis:*" ++ nl
     ++ bullet ++ " Daily RSI: " ++ format_2f dv
     ++ " - " ++ daily_signal ++ nl
     ++ bullet ++ " Weekly RSI: " ++ format_2f wv
     ++ " - " ++ weekly_signal ++ nl
     ++ bullet ++ " Monthly RSI: " ++ format_2f mv
     ++ " - " ++ monthly_signal ++ nl
     ++ nl
     ++ "*Overall Recommendation: " ++ overall_signal ++ "*" ++ nl
     ++ recommendation_reason ++ nl
     ++ nl
     ++ "Next update will be available after market open tomorrow."
     ++ nl)%string.
Proof.
  unfold refreshed, summary_of.
  destruct (get_rsi_signal dv), (get_rsi_signal wv), (get_rsi_signal mv).
  destruct (get_overall_signal dv wv mv) as [[? ?] ?].
  reflexivity.
Qed.

(** X11: the end-of-day summary recomputes every figure from the frames,
    and what it reports is what the dict of the same refresh holds: the
    summary is the last message sent and its text is the one that the
    stored price, price change, RSI readings, signals, recommendation and
    reason give, dated with the last daily bar. *)
Theorem summary_reports_stored_figures :
  forall (w : env) (latest_data : Snap.t) (bars : frame) (b : bar)
         (weekly monthly : frame),
    fetch_all w = Ok (bars ++ [b], weekly, monthly) ->
    just_closed (now_close w) = true ->
    exists before,
      sent (update_data w latest_data)
      = before
        ++ [summary_of (data_after (update_data w latest_data))
                       (Date.strftime_day (stamp b))]
      /\ (length before <= 1)%nat.
Proof.
  intros w latest_data bars b weekly monthly E C.
  destruct (refresh_succeeds w latest_data (bars ++ [b]) weekly monthly E)
    as (dv & wv & mv & Hd & Hw & Hm & D & _).
  rewrite D. rewrite summary_of_refreshed.
  unfold update_data. rewrite E, Hd, Hw, Hm. cbn [bind]. rewrite C.
  unfold generate_daily_summary. rewrite Hd, Hw, Hm. cbn [bind].
  unfold index. rewrite !map_app. cbn [map]. rewrite last_last.
  destruct (get_rsi_signal dv), (get_rsi_signal wv), (get_rsi_signal mv).
  destruct (get_overall_signal dv wv mv) as [[? ?] ?].
  cbn [sent].
  eexists. split; [reflexivity|].
  destruct (is_market_open (now_market w)); simpl; lia.
Qed.

Lemma summary_reports_stored_figures_witness :
  let bars := bars_from 1 [Fin 100; Fin 101] in
  let b := {| stamp := at_time 2025 1 3 0 0 0 0; close := Fin 99 |} in
  fetch_all at_the_close = Ok (bars ++ [b], sample_frame, sample_frame)
  /\ just_closed (now_close at_the_close) = true
  /\ exists before,
       sent (update_data at_the_close initial_latest_data)
       = before
         ++ [summary_of (data_after (update_data at_the_close
                                                 initial_latest_data))
                        (Date.strftime_day (stamp b))]
       /\ (length before <= 1)%nat.
Proof.
  intros bars b.
  assert (E : fetch_all at_the_close
              = Ok (bars ++ [b], sample_frame, sample_frame))
    by reflexivity.
  assert (C : just_closed (now_close at_the_close) = true) by reflexivity.
  split; [exact E|]. split; [exact C|].
  exact (summary_reports_stored_figures at_the_close initial_latest_data
           bars b sample_frame sample_frame E C).
Defined.

Lemma prefix_first_difference (p q s : string) (n : nat) :
  String.get n p <> String.get n q ->
  String.get n p <> None -> String.get n q <> None ->
  String.prefix p s = true -> String.prefix q s = false.
Proof.
  revert p q s; induction n as [|n IH]; intros p q s D Hp Hq P.
  - destruct p as [|a p]; [now elim Hp|].
    destruct q as [|b q]; [now elim Hq|].
    destruct s as [|c s]; [discriminate P|].
    simpl in *. destruct (ascii_dec a c) as [->|]; [|discriminate P].
    destruct (ascii_dec b c) as [->|]; [now elim D|reflexivity].
  - destruct p as [|a p]; [now elim Hp|].
    destruct q as [|b q]; [now elim Hq|].
    destruct s as [|c s]; [discriminate P|].
    simpl in *. destruct (ascii_dec a c) as [->|]; [|discriminate P].
    destruct (ascii_dec b c) as [->|]; [|reflexivity].
    now apply (IH p q s).
Qed.

(** The two headlines part at their tenth character. *)
Lemma headlines_differ_live (message : string) :
  is_live_update message = true -> is_daily_summary message = false.
Proof.
  apply (prefix_first_difference update_headline summary_headline message 10);
    vm_compute; congruence.
Qed.

Lemma headlines_differ_summary (message : string) :
  is_daily_summary message = true -> is_live_update message = false.
Proof.
  apply (prefix_first_difference summary_headline update_headline message 10);
    vm_compute; congruence.
Qed.

(** X12: what a refresh hands to the bot.  With an unusable download it
    sends nothing.  Otherwise it sends the live update exactly when the
    market is open at the reading of [is_market_open], and the summary
    exactly when the later reading falls in the summary window, the live
    update first; it never sends more than these two. *)
Theorem messages_of_refresh :
  forall (w : env) (latest_data : Snap.t),
    (fetch_failed w -> sent (update_data w latest_data) = [])
    /\ (~ fetch_failed w ->
        exists live summary,
          is_live_update live = true /\ is_daily_summary live = false
          /\ is_daily_summary summary = true
          /\ is_live_update summary = false
          /\ sent (update_data w latest_data)
             = (if is_market_open (now_market w) then [live] else [])
               ++ (if just_closed (now_close w) then [summary] else []))
    /\ (length (sent (update_data w latest_data)) <= 2)%nat.
Proof.
  intros w latest_data.
  destruct (fetch_all_cases w) as [[[[d wk] m] E] | F].
  - pose proof (fetch_all_ok_not_failed w _ E) as NF.
    destruct (sent_of_refresh w latest_data d wk m E)
      as (live & summary & L & S & ->).
    split; [intro; contradiction|]. split.
    + intros _. exists live, summary. repeat split; try assumption.
      * apply headlines_differ_live. exact L.
      * apply headlines_differ_summary. exact S.
    + destruct (is_market_open (now_market w)),
               (just_closed (now_close w)); simpl; lia.
  - rewrite (failed_refresh w latest_data F). cbn [sent].
    split; [reflexivity|]. split; [intro; contradiction|simpl; lia].
Qed.

(** ** Market hours *)

Ltac split_comparisons :=
  repeat match goal with
         | |- context [(?a <? ?b)%Z] => destruct (Z.ltb_spec a b)
         | |- context [(?a <=? ?b)%Z] => destruct (Z.leb_spec a b)
         | |- context [(?a =? ?b)%Z] => destruct (Z.eqb_spec a b)
         | H : context [(?a <? ?b)%Z] |- _ => destruct (Z.ltb_spec a b)
         | H : context [(?a <=? ?b)%Z] |- _ => destruct (Z.leb_spec a b)
         | H : context [(?a =? ?b)%Z] |- _ => destruct (Z.eqb_spec a b)
         end.

(** Boolean comparisons of integers in the hypotheses become
    propositions. *)
Ltac reflect_Z :=
  repeat match goal with
         | H : (_ <=? _)%Z = true |- _ => apply Z.leb_le in H
         | H : (_ <? _)%Z = true |- _ => apply Z.ltb_lt in H
         | H : (_ =? _)%Z = true |- _ => apply Z.eqb_eq in H
         end.

Lemma is_market_open_unfold (now : datetime) :
  is_market_open now =
  if (5 <=? Date.weekday now)%Z then false
  else Date.lex_leb [9; 15; 0]%Z [hour now; minute now; second now]
       && Date.lex_leb [hour now; minute now; second now] [15; 30; 0]%Z.
Proof.
  unfold is_market_open, Date.leb, Date.fields, Date.replace_hms.
  destruct (5 <=? Date.weekday now)%Z; [reflexivity|].
  cbn [year month day hour minute second microsecond Date.lex_leb].
  rewrite !Z.ltb_irrefl. reflexivity.
Qed.

(** X13: for a reading with minutes and seconds below 60, the market is
    open exactly on Monday to Friday from second 33300 of the day
    (09:15:00) to second 55800 (15:30:00), both included; the date, apart
    from its weekday, and the microsecond play no part. *)
Theorem market_open_seconds :
  forall now : datetime,
    (0 <= minute now < 60)%Z -> (0 <= second now < 60)%Z ->
    is_market_open now = true
    <-> (Date.weekday now < 5)%Z
        /\ (33300 <= second_of_day now <= 55800)%Z.
Proof.
  intros now Hm Hs. rewrite is_market_open_unfold. unfold second_of_day.
  cbn [Date.lex_leb].
  split.
  - intro H. split_comparisons; cbn [andb] in H; try discriminate H; lia.
  - intros [Hw Hd]. split_comparisons; cbn [andb]; try reflexivity; lia.
Qed.

Lemma market_open_seconds_witness :
  let now := at_time 2025 1 6 12 0 0 0 in
  (0 <= minute now < 60)%Z /\ (0 <= second now < 60)%Z
  /\ is_market_open now = true
  /\ (Date.weekday now < 5)%Z /\ (33300 <= second_of_day now <= 55800)%Z.
Proof.
  intro now.
  assert (Hm : (0 <= minute now < 60)%Z) by (simpl; lia).
  assert (Hs : (0 <= second now < 60)%Z) by (simpl; lia).
  split; [exact Hm|]. split; [exact Hs|]. split; [reflexivity|].
  exact (proj1 (market_open_seconds now Hm Hs) eq_refl).
Defined.

(** X14: one reading of the clock passes both the market-hours test and
    the summary-window test exactly on Monday to Friday at 15:30:00 (any
    microsecond): at every other instant a refresh that reads the clock
    once cannot send both messages. *)
Theorem both_tests_pass_only_at_close :
  forall now : datetime,
    (0 <= second now)%Z ->
    is_market_open now && just_closed now = true
    <-> (Date.weekday now < 5)%Z /\ hour now = 15%Z /\ minute now = 30%Z
        /\ second now = 0%Z.
Proof.
  intros now Hs. rewrite is_market_open_unfold. unfold just_closed.
  cbn [Date.lex_leb].
  split.
  - intro H. split_comparisons; cbn [andb] in H; try discriminate H; lia.
  - intros (Hw & Hh & Hm & H0).
    split_comparisons; cbn [andb]; try reflexivity; lia.
Qed.

Lemma both_tests_pass_only_at_close_witness :
  let now := at_time 2025 1 6 15 30 0 250 in
  (0 <= second now)%Z
  /\ is_market_open now && just_closed now = true
  /\ is_market_open (at_time 2025 1 6 15 30 1 0)
     && just_closed (at_time 2025 1 6 15 30 1 0) = false
  /\ (Date.weekday now < 5)%Z /\ hour now = 15%Z /\ minute now = 30%Z
  /\ second now = 0%Z.
Proof.
  intro now.
  assert (Hs : (0 <= second now)%Z) by (simpl; lia).
  split; [exact Hs|]. split; [reflexivity|]. split; [reflexivity|].
  exact (proj1 (both_tests_pass_only_at_close now Hs) eq_refl).
Defined.

(** ** Charts *)

Example add_days_samples :
  Cal.add_days (at_time 2025 1 30 9 15 0 0) 5 = at_time 2025 2 4 9 15 0 0
  /\ Cal.add_days (at_time 2024 2 27 0 0 0 0) 2 = at_time 2024 2 29 0 0 0 0
  /\ Cal.add_days (at_time 2024 12 31 0 0 0 0) 1 = at_time 2025 1 1 0 0 0 0
  /\ Cal.add_days (at_time 2025 3 3 0 0 0 0) 0 = at_time 2025 3 3 0 0 0 0.
Proof. repeat split; reflexivity. Qed.

Lemma map2_bar_columns (l : frame) (m : list pyfloat) :
  length l = length m ->
  index (map2 (fun b c => {| stamp := stamp b; close := c |}) l m) = index l
  /\ Close (map2 (fun b c => {| stamp := stamp b; close := c |}) l m) = m.
Proof.
  unfold index, Close. revert m; induction l as [|b l IH]; intros [|c m] H;
    simpl in *; try discriminate; [split; reflexivity|].
  destruct (IH m) as [I C]; [lia|]. now rewrite I, C.
Qed.

Lemma fillna_columns (df : frame) :
  index (fillna df) = index df /\ Close (fillna df) = ffill (Close df).
Proof.
  unfold fillna. apply map2_bar_columns.
  unfold ffill, Close. now rewrite length_ffill_from, length_map.
Qed.

(** The estimator on a filled frame, under the default window. *)
Lemma rsi_of_filled_frame (df : frame) :
  exists rsi,
    calculate_rsi (Close (fillna df)) default_window = Ok rsi
    /\ calculate_rsi (Close df) default_window = Ok rsi
    /\ length rsi = length df
    /\ Forall (fun v => isnan v = false) rsi.
Proof.
  rewrite (proj2 (fillna_columns df)).
  assert (E : calculate_rsi (ffill (Close df)) default_window
              = calculate_rsi (Close df) default_window).
  { unfold calculate_rsi, ffill. now rewrite ffill_from_idempotent. }
  rewrite E.
  destruct (calculate_rsi (Close df) default_window) as [rsi|e] eqn:R.
  - exists rsi. split; [reflexivity|]. split; [reflexivity|]. split.
    + rewrite (calculate_rsi_length _ _ _ R). apply length_map.
    + eapply Forall_impl; [|exact (calculate_rsi_range _ _ _ R)].
      intros [q|] H; [reflexivity|contradiction].
  - rewrite calculate_rsi_means in R by (unfold default_window; lia).
    discriminate R.
Qed.

Lemma length_tail_n {A : Type} (n : nat) (l : list A) :
  length (tail_n n l) = Nat.min n (length l).
Proof. unfold tail_n. rewrite length_skipn. lia. Qed.

Lemma item_minus (A : Type) (l : list A) (n : nat) :
  (1 <= n)%nat ->
  item l (- Z.of_nat n) = if (length l <? n)%nat then None
                          else nth_error l (length l - n).
Proof.
  intro H. unfold item.
  destruct (Z.ltb_spec (- Z.of_nat n) 0); [|lia].
  destruct (Nat.ltb_spec (length l) n).
  - destruct (Z.ltb_spec (Z.of_nat (length l) + - Z.of_nat n) 0); [|lia].
    reflexivity.
  - destruct (Z.ltb_spec (Z.of_nat (length l) + - Z.of_nat n) 0); [lia|].
    destruct (Z.leb_spec (Z.of_nat (length l))
                         (Z.of_nat (length l) + - Z.of_nat n)); [lia|].
    cbn [orb]. f_equal. lia.
Qed.

(** X15: the RSI figure needs thirty daily bars.  With fewer, the price
    chart is written, the threshold lines then ask for the thirtieth bar
    from the end, the function ends with an IndexError and the RSI image
    is not written; with thirty or more both images are written and the
    daily line has exactly thirty points. *)
Theorem rsi_chart_needs_thirty_bars :
  forall daily weekly monthly : frame,
    let price := PriceChart (index daily) (ffill (Close daily)) in
    if (length daily <? 30)%nat then
      generate_charts daily weekly monthly = ([price], Some IndexOutOfBounds)
    else
      exists figure,
        generate_charts daily weekly monthly
        = ([price; RsiChart figure], None)
        /\ length (fst (daily_line figure)) = 30%nat
        /\ length (snd (daily_line figure)) = 30%nat.
Proof.
  intros daily weekly monthly price. subst price.
  unfold generate_charts.
  destruct (rsi_of_filled_frame daily) as (dr & -> & _ & Ld & _).
  destruct (rsi_of_filled_frame weekly) as (wr & -> & _ & _ & _).
  destruct (rsi_of_filled_frame monthly) as (mr & -> & _ & _ & _).
  destruct (fillna_columns daily) as [-> ->].
  change (-30)%Z with (- Z.of_nat 30)%Z.
  change (-1)%Z with (- Z.of_nat 1)%Z.
  rewrite !item_minus by lia.
  assert (Li : length (index daily) = length daily) by apply length_map.
  rewrite Li.
  destruct (Nat.ltb_spec (length daily) 30) as [H|H]; [reflexivity|].
  destruct (Nat.ltb_spec (length daily) 1) as [H1|_]; [lia|].
  destruct (nth_error (index daily) (length daily - 30)) as [x0|] eqn:N0;
    [|apply nth_error_None in N0; lia].
  destruct (nth_error (index daily) (length daily - 1)) as [x1|] eqn:N1;
    [|apply nth_error_None in N1; lia].
  eexists. split; [reflexivity|].
  cbn [daily_line fst snd]. rewrite !length_tail_n. lia.
Qed.

(** ** The lines of the slower timeframes *)

Lemma spread_step (A : list (datetime * pyfloat)) (x : datetime * pyfloat) :
  (let '(dates, values) := line_of (firstn 30 A) in
   if (length dates <? 30)%nat
   then (dates ++ [fst x], values ++ [snd x])
   else line_of (firstn 30 A))
  = line_of (firstn 30 (A ++ [x])).
Proof.
  unfold line_of. rewrite length_map, length_firstn.
  destruct (Nat.ltb_spec (Nat.min 30 (length A)) 30) as [H|H].
  - rewrite (firstn_all2 (n := 30) A) by lia.
    rewrite (firstn_all2 (n := 30) (A ++ [x]))
      by (rewrite length_app; simpl; lia).
    now rewrite !map_app.
  - rewrite firstn_app.
    replace (30 - length A)%nat with 0%nat by lia.
    cbn [firstn]. now rewrite app_nil_r.
Qed.

Lemma spread_reading_firstn (copies : nat) (stride : Z) (date : datetime)
  (v : pyfloat) (A : list (datetime * pyfloat)) :
  spread_reading copies stride date v (line_of (firstn 30 A))
  = line_of (firstn 30
               (A ++ map (fun i => (Cal.add_days date (Z.of_nat i * stride), v))
                         (seq 0 copies))).
Proof.
  unfold spread_reading. generalize (seq 0 copies) as positions.
  intro positions. revert A.
  induction positions as [|i positions IH]; intro A; cbn [fold_left map].
  - now rewrite app_nil_r.
  - pose proof (spread_step A (Cal.add_days date (Z.of_nat i * stride), v))
      as S.
    cbn [fst snd] in S.
    destruct (line_of (firstn 30 A)) as [dates values] eqn:L.
    destruct (length dates <? 30)%nat; rewrite S, IH;
      now rewrite <- app_assoc.
Qed.

Lemma spread_firstn (copies : nat) (stride : Z)
  (points : list (datetime * pyfloat)) :
  Forall (fun p => isnan (snd p) = false) points ->
  spread copies stride points
  = line_of (firstn 30 (every_copy copies stride points)).
Proof.
  intro H. unfold spread.
  change (@nil datetime, @nil pyfloat) with (line_of (firstn 30 [])).
  change (every_copy copies stride points)
    with ([] ++ every_copy copies stride points).
  generalize (@nil (datetime * pyfloat)) as A.
  induction H as [|[d v] points Hv _ IH]; intro A; cbn [fold_left].
  - unfold every_copy. cbn [flat_map]. now rewrite app_nil_r.
  - cbn [snd] in Hv. rewrite Hv, spread_reading_firstn, IH.
    unfold every_copy. cbn [flat_map fst snd]. now rewrite <- app_assoc.
Qed.

Lemma map_const_seq {A : Type} (v : A) (start n : nat) :
  map (fun _ => v) (seq start n) = repeat v n.
Proof.
  revert start; induction n as [|n IH]; intro start; cbn [seq map repeat];
    [reflexivity|]. f_equal. apply IH.
Qed.

Lemma values_of_every_copy (copies : nat) (stride : Z)
  (points : list (datetime * pyfloat)) :
  map snd (every_copy copies stride points)
  = flat_map (fun v => repeat v copies) (map snd points).
Proof.
  unfold every_copy. induction points as [|[d v] points IH];
    cbn [flat_map map fst snd]; [reflexivity|].
  rewrite map_app, IH. f_equal. rewrite map_map. cbn [snd].
  apply map_const_seq.
Qed.

Lemma firstn_blocks (copies k : nat) (vs : list pyfloat) :
  firstn (k * copies) (flat_map (fun v => repeat v copies) vs)
  = flat_map (fun v => repeat v copies) (firstn k vs).
Proof.
  revert vs; induction k as [|k IH]; intros [|v vs]; cbn [flat_map firstn];
    try reflexivity.
  - now rewrite firstn_nil.
  - replace (S k * copies)%nat with (length (repeat v copies) + k * copies)%nat
      by (rewrite repeat_length; lia).
    rewrite firstn_app_2. now rewrite IH.
Qed.

Lemma values_of_combine (xs : list datetime) (ys : list pyfloat) :
  length xs = length ys -> map snd (combine xs ys) = ys.
Proof.
  revert ys; induction xs as [|x xs IH]; intros [|y ys] H; simpl in *;
    try discriminate; [reflexivity|]. f_equal. apply IH. lia.
Qed.

Lemma Forall_tail_n {A : Type} (P : A -> Prop) (n : nat) (l : list A) :
  Forall P l -> Forall P (tail_n n l).
Proof.
  intro H. apply Forall_forall. intros x Hx. unfold tail_n in Hx.
  apply In_skipn in Hx. rewrite Forall_forall in H. auto.
Qed.

(** The values of the line that [spread] draws from the last [n] bars of a
    frame and its RSI series. *)
Lemma spread_values (copies k n : nat) (stride : Z) (dates : list datetime)
  (rsi : list pyfloat) :
  length dates = length rsi ->
  Forall (fun v => isnan v = false) rsi ->
  (k * copies = 30)%nat ->
  let line := spread copies stride (combine (tail_n n dates) (tail_n n rsi)) in
  snd line = flat_map (fun v => repeat v copies) (firstn k (tail_n n rsi))
  /\ length (fst line) = length (snd line).
Proof.
  intros L N K line. subst line.
  assert (Lt : length (tail_n n dates) = length (tail_n n rsi))
    by (rewrite !length_tail_n; lia).
  rewrite spread_firstn.
  - unfold line_of. cbn [fst snd]. split.
    + rewrite <- firstn_map, values_of_every_copy, values_of_combine
        by exact Lt.
      rewrite <- K. apply firstn_blocks.
    + now rewrite !length_map.
  - apply Forall_forall. intros [d v] I. cbn [snd].
    apply in_combine_r in I.
    pose proof (Forall_tail_n _ n rsi N) as T.
    rewrite Forall_forall in T. auto.
Qed.

(** X16: in every RSI figure that is written, the weekly line draws the
    six oldest of the last ten weekly readings, five points each, and
    stops at the limit of thirty points, so the four most recent weeks are
    never drawn; the monthly line draws each of the last five monthly
    readings six times.  Both lines have as many dates as values. *)
Theorem slow_lines_of_figure :
  forall (daily weekly monthly : frame) (images : list image)
         (figure : rsi_figure),
    generate_charts daily weekly monthly = (images, None) ->
    In (RsiChart figure) images ->
    exists weekly_rsi monthly_rsi,
      calculate_rsi (Close weekly) default_window = Ok weekly_rsi
      /\ calculate_rsi (Close monthly) default_window = Ok monthly_rsi
      /\ snd (weekly_line figure)
         = flat_map (fun v => repeat v 5) (firstn 6 (tail_n 10 weekly_rsi))
      /\ snd (monthly_line figure)
         = flat_map (fun v => repeat v 6) (tail_n 5 monthly_rsi)
      /\ length (fst (weekly_line figure)) = length (snd (weekly_line figure))
      /\ length (fst (monthly_line figure))
         = length (snd (monthly_line figure)).
Proof.
  intros daily weekly monthly images figure G I.
  unfold generate_charts in G.
  destruct (rsi_of_filled_frame daily) as (dr & Ed & _ & _ & _).
  destruct (rsi_of_filled_frame weekly) as (wr & Ew & Ew' & Lw & Nw).
  destruct (rsi_of_filled_frame monthly) as (mr & Em & Em' & Lm & Nm).
  rewrite Ed, Ew, Em in G.
  destruct (item (index (fillna daily)) (-30)) as [x0|];
    [|discriminate G].
  destruct (item (index (fillna daily)) (-1)) as [x1|];
    [|discriminate G].
  injection G as <-.
  destruct I as [I | [I | []]]; [discriminate I|]. injection I as <-.
  exists wr, mr. split; [exact Ew'|]. split; [exact Em'|].
  cbn [weekly_line monthly_line].
  assert (Iw : length (index (fillna weekly)) = length wr).
  { rewrite (proj1 (fillna_columns weekly)). unfold index.
    now rewrite length_map. }
  assert (Im : length (index (fillna monthly)) = length mr).
  { rewrite (proj1 (fillna_columns monthly)). unfold index.
    now rewrite length_map. }
  destruct (spread_values 5 6 10 1 _ _ Iw Nw eq_refl) as [Vw Cw].
  destruct (spread_values 6 5 5 5 _ _ Im Nm eq_refl) as [Vm Cm].
  rewrite (firstn_all2 (n := 5) (tail_n 5 mr)) in Vm
    by (rewrite length_tail_n; lia).
  repeat split; assumption.
Qed.

Lemma slow_lines_of_figure_witness :
  exists images figure,
    generate_charts forty_days twelve_weeks seven_months = (images, None)
    /\ In (RsiChart figure) images
    /\ length (snd (weekly_line figure)) = 30%nat
    /\ length (snd (monthly_line figure)) = 30%nat
    /\ exists weekly_rsi monthly_rsi,
         calculate_rsi (Close twelve_weeks) default_window = Ok weekly_rsi
         /\ calculate_rsi (Close seven_months) default_window
            = Ok monthly_rsi
         /\ snd (weekly_line figure)
            = flat_map (fun v => repeat v 5)
                       (firstn 6 (tail_n 10 weekly_rsi))
         /\ snd (monthly_line figure)
            = flat_map (fun v => repeat v 6) (tail_n 5 monthly_rsi)
         /\ length (fst (weekly_line figure))
            = length (snd (weekly_line figure))
         /\ length (fst (monthly_line figure))
            = length (snd (monthly_line figure)).
Proof.
  destruct (generate_charts forty_days twelve_weeks seven_months)
    as [images error] eqn:G.
  assert (E : error = None) by (vm_compute in G; congruence).
  subst error.
  assert (I : exists figure, In (RsiChart figure) images
                             /\ length (snd (weekly_line figure)) = 30%nat
                             /\ length (snd (monthly_line figure)) = 30%nat).
  { vm_compute in G. injection G as <-. eexists. split.
    - right. left. reflexivity.
    - split; reflexivity. }
  destruct I as (figure & I & Lw & Lm).
  exists images, figure. split; [reflexivity|]. split; [exact I|].
  split; [exact Lw|]. split; [exact Lm|].
  exact (slow_lines_of_figure forty_days twelve_weeks seven_months images
                              figure G I).
Defined.

(** ** A frame with one daily bar *)

(** X17: the price change falls back on the default of the RSI readings.
    When the daily frame has a single bar, there is no previous close and
    [safe_get_value] hands out 50.0, so the stored price change is the
    change of the close against 50.0, computed in binary64; and when the
    close of that bar is missing the stored price is 50.00 and the stored
    change 0.00. *)
Theorem price_change_of_single_bar :
  forall (w : env) (latest_data : Snap.t) (b : bar) (weekly monthly : frame),
    fetch_all w = Ok ([b], weekly, monthly) ->
    let stored := data_after (update_data w latest_data) in
    match close b with
    | Fin c =>
        Snap.current_price stored = PyStr (format_2f (Fin c))
        /\ Snap.price_change stored
           = PyStr (Double.format_2f
                      (PrimFloat.mul
                         (PrimFloat.div
                            (PrimFloat.sub (Double.of_Q c) Double.f50)
                            Double.f50)
                         Double.f100))
    | NaN =>
        Snap.current_price stored = PyStr "50.00"
        /\ Snap.price_change stored = PyStr "0.00"
    end.
Proof.
  intros w latest_data b weekly monthly E stored. subst stored.
  destruct (refresh_succeeds w latest_data [b] weekly monthly E)
    as (dv & wv & mv & _ & _ & _ & -> & _).
  rewrite price_change_refreshed.
  assert (P : Snap.current_price (refreshed w [b] dv wv mv)
              = PyStr (format_2f (safe_get_value (Close [b]) (-1) f50))).
  { unfold refreshed.
    destruct (get_rsi_signal dv), (get_rsi_signal wv), (get_rsi_signal mv).
    destruct (get_overall_signal dv wv mv) as [[? ?] ?]. reflexivity. }
  rewrite P. unfold Close. cbn [map].
  destruct (close b) as [c|]; split; reflexivity.
Qed.

(** A single bar that closed at 56.8125: the change against 50.0 is
    13.625 in exact arithmetic, a tie that two decimals would round to
    13.62; binary64 computes 13.625000000000002 and the stored text is
    13.63. *)
Lemma price_change_of_single_bar_witness :
  let b := {| stamp := at_time 2025 1 6 0 0 0 0;
              close := Fin (568125 # 10000) |} in
  let w := {| download := fun _ => Ok [b];
              now_stamp := at_time 2025 1 6 10 0 0 0;
              now_market := at_time 2025 1 6 10 0 0 0;
              now_close := at_time 2025 1 6 10 0 0 0;
              now_summary := at_time 2025 1 6 10 0 0 0 |} in
  fetch_all w = Ok ([b], [b], [b])
  /\ Snap.current_price (data_after (update_data w initial_latest_data))
     = PyStr "56.81"
  /\ Snap.price_change (data_after (update_data w initial_latest_data))
     = PyStr "13.63"
  /\ format_2f (Fin (((568125 # 10000) - 50) / 50 * 100)) = "13.62".
Proof.
  intros b w.
  assert (E : fetch_all w = Ok ([b], [b], [b])) by reflexivity.
  split; [exact E|].
  destruct (price_change_of_single_bar w initial_latest_data b [b] [b] E)
    as [C P].
  split; [exact C|]. split; [|reflexivity].
  rewrite P. vm_compute. reflexivity.
Defined.

(** ** The schedule *)

(** X18: of the instants at which the schedule fires, those of the
    summary job (15:35) and the 15:30 tick of the market-hours job both
    lead to a summary when the refresh reads the clock within the minute
    of firing, two summaries a trading day; no other tick does; and at
    15:35 the market counts as closed, so that job sends no live update. *)
Theorem schedule_sends_two_summaries :
  forall t now : datetime,
    same_minute t now ->
    (market_hours_update_fires t = true ->
     (just_closed now = true <-> hour t = 15%Z /\ minute t = 30%Z))
    /\ (daily_summary_fires t = true ->
        just_closed now = true /\ is_market_open now = false).
Proof.
  intros t now (Hy & Hmo & Hd & Hh & Hm & Hs). split.
  - unfold market_hours_update_fires, just_closed. rewrite Hh, Hm.
    intro F. repeat (apply andb_true_iff in F as [F ?]). reflect_Z.
    assert (R : (minute t = 15 * (minute t / 15) + minute t mod 15)%Z)
      by (apply Z.div_mod; lia).
    split_comparisons; cbn [andb]; split; intro K; try discriminate K;
      try reflexivity; lia.
  - unfold daily_summary_fires. intro F.
    repeat (apply andb_true_iff in F as [F ?]). reflect_Z.
    rewrite is_market_open_unfold. unfold just_closed.
    replace (hour now) with 15%Z by lia.
    replace (minute now) with 35%Z by lia.
    split; [reflexivity|].
    destruct (5 <=? Date.weekday now)%Z; reflexivity.
Qed.

Lemma schedule_sends_two_summaries_witness :
  let tick := at_time 2025 1 6 15 30 0 0 in
  let summary_job := at_time 2025 1 6 15 35 0 0 in
  same_minute tick (at_time 2025 1 6 15 30 41 0)
  /\ same_minute summary_job (at_time 2025 1 6 15 35 7 0)
  /\ market_hours_update_fires tick = true
  /\ daily_summary_fires summary_job = true
  /\ just_closed (at_time 2025 1 6 15 30 41 0) = true
  /\ just_closed (at_time 2025 1 6 15 35 7 0) = true
  /\ is_market_open (at_time 2025 1 6 15 35 7 0) = false.
Proof.
  intros tick summary_job.
  assert (S1 : same_minute tick (at_time 2025 1 6 15 30 41 0))
    by (repeat split; simpl; lia).
  assert (S2 : same_minute summary_job (at_time 2025 1 6 15 35 7 0))
    by (repeat split; simpl; lia).
  split; [exact S1|]. split; [exact S2|].
  split; [reflexivity|]. split; [reflexivity|]. split.
  - exact (proj2 (proj1 (schedule_sends_two_summaries tick _ S1) eq_refl)
                 (conj eq_refl eq_refl)).
  - exact (proj2 (schedule_sends_two_summaries summary_job _ S2) eq_refl).
Defined.

(** ** Rounding in the aggregator *)

(** X19: for every triple of readings, missing ones included, the chain
    of comparisons of the aggregator applied to the weighted score as
    binary64 computes it gives the label that exact arithmetic gives:
    rounding (0.5 - 0.2 against 0.3, 0.5 - 0.3 - 0.2 against 0) moves no
    label. *)
Theorem rounding_keeps_labels :
  forall d w m : pyfloat,
    Binary64.label
      (Binary64.weighted_score (rsi_score (nan_to_50 d))
                               (rsi_score (nan_to_50 w))
                               (rsi_score (nan_to_50 m)))
    = fst (fst (get_overall_signal d w m)).
Proof.
  intros d w m. rewrite get_overall_signal_scores.
  apply binary64_labels.
  - destruct (rsi_score_range d) as [<- | [<- | [<- | []]]]; simpl; auto.
  - destruct (rsi_score_range w) as [<- | [<- | [<- | []]]]; simpl; auto.
  - destruct (rsi_score_range m) as [<- | [<- | [<- | []]]]; simpl; auto.
Qed.
